(** * CalorieCount: the calorie engine and its form validation

    A shallow embedding of [client/src/lib/calorie-calculator.ts] and of the
    schema and submit handler of [client/src/pages/home.tsx].

    JavaScript numbers are IEEE-754 binary64 values, so they are modelled by
    Rocq's primitive [float]; strings are [string]; the few built-ins the
    code relies on ([Math.round], property lookup on an object literal, the
    [||] operator, the zod combinators of the schema) are written out in the
    modules [JS] and [Zod] below. *)

From Stdlib Require Import ZArith String List Bool Lia.
From Stdlib Require Import Floats.
From Stdlib Require QArith Qround.
Import ListNotations.

Set Warnings "-inexact-float".
Local Open Scope string_scope.

(** ** The fragment of JavaScript the code uses *)

Module JS.

(** Built-in objects an object literal reaches through its prototype chain. *)
Inductive intrinsic : Type :=
| ObjectPrototype
| ObjectConstructor
| ObjectPrototypeFunction (name : string).

Inductive value : Type :=
| VUndefined
| VNull
| VBoolean (b : bool)
| VNumber (x : float)
| VString (s : string)
| VObject (o : intrinsic).

Definition ToBoolean (v : value) : bool :=
  match v with
  | VUndefined | VNull => false
  | VBoolean b => b
  | VNumber x => negb (is_zero x || is_nan x)
  | VString s => negb (String.eqb s "")
  | VObject _ => true
  end.

(** [a || b] on values that are already evaluated. *)
Definition logical_or (a b : value) : value :=
  if ToBoolean a then a else b.

(** An object written as a literal: its own data properties in source
    order; its prototype is [Object.prototype]. *)
Definition object_literal : Type := list (string * value).

Fixpoint own_property (o : object_literal) (key : string) : option value :=
  match o with
  | [] => None
  | (k, v) :: rest => if String.eqb k key then Some v else own_property rest key
  end.

(** The function-valued properties of [Object.prototype]. *)
Definition ObjectPrototype_functions : list string :=
  [ "__defineGetter__"; "__defineSetter__"; "hasOwnProperty";
    "__lookupGetter__"; "__lookupSetter__"; "isPrototypeOf";
    "propertyIsEnumerable"; "toString"; "valueOf"; "toLocaleString" ].

(** What a property read finds on [Object.prototype] when the receiver is an
    object literal: [constructor] is the [Object] function, the [__proto__]
    accessor yields the receiver's prototype, the rest are functions. *)
Definition ObjectPrototype_get (key : string) : option value :=
  if String.eqb key "constructor" then Some (VObject ObjectConstructor)
  else if String.eqb key "__proto__" then Some (VObject ObjectPrototype)
  else if existsb (String.eqb key) ObjectPrototype_functions
       then Some (VObject (ObjectPrototypeFunction key))
  else None.

(** [o[key]]: own properties first, then the prototype chain, else
    [undefined]. *)
Definition Get (o : object_literal) (key : string) : value :=
  match own_property o key with
  | Some v => v
  | None =>
      match ObjectPrototype_get key with
      | Some v => v
      | None => VUndefined
      end
  end.

(** The integer [z] as a number (exact below 2^53, rounded to nearest even
    above). *)
Definition Z2float (z : Z) : float :=
  SF2Prim (binary_normalize prec emax z 0 false).

(** [floor (v·2^e + 1/2)] for a negative exponent [e]: the integer closest
    to [v·2^e], the larger one on a tie. *)
Definition round_half_up (v e : Z) : Z :=
  Z.shiftr (v + Z.shiftl 1 (- e - 1)) (- e).

(** [Math.round]: NaN, the infinities, the zeros and integral values are
    returned unchanged; otherwise the result is the integer closest to [x],
    the larger one on a tie, computed exactly on the mantissa and exponent
    of [x]; a zero result keeps the sign of [x]. *)
Definition Math_round (x : float) : float :=
  match Prim2SF x with
  | S754_finite s m e =>
      if (0 <=? e)%Z then x
      else
        let v := if s then Z.neg m else Z.pos m in
        SF2Prim (binary_normalize prec emax (round_half_up v e) 0 s)
  | _ => x
  end.

(** How a call ends: with a value, or with a thrown error (named by its
    kind). *)
Inductive completion (A : Type) : Type :=
| Return (v : A)
| Throw (error : string).

Arguments Return {A} v.
Arguments Throw {A} error.

End JS.

(** ** The zod combinators of the form schema *)

Module Zod.
Import JS.

Inductive ZodIssueCode : Type :=
| invalid_type
| invalid_enum_value
| too_small
| too_big.

(** An issue: its code, the field it is about, and the message the schema
    gives for it ([None] when the schema gives none and zod's default
    wording is used). *)
Record ZodIssue : Type := mkIssue {
  issue_code : ZodIssueCode;
  issue_path : string;
  issue_message : option string
}.

Inductive ZodParsedType : Type :=
| zpt_undefined
| zpt_null
| zpt_boolean
| zpt_nan
| zpt_number
| zpt_string
| zpt_function
| zpt_object.

Definition getParsedType (data : value) : ZodParsedType :=
  match data with
  | VUndefined => zpt_undefined
  | VNull => zpt_null
  | VBoolean _ => zpt_boolean
  | VNumber x => if is_nan x then zpt_nan else zpt_number
  | VString _ => zpt_string
  | VObject ObjectPrototype => zpt_object
  | VObject _ => zpt_function
  end.

(** The [required_error] and [invalid_type_error] options of a schema. *)
Record RawCreateParams : Type := mkParams {
  required_error : option string;
  invalid_type_error : option string
}.

(** The message of a type issue: [required_error] when the datum is
    [undefined], [invalid_type_error] otherwise. *)
Definition type_issue_message (params : RawCreateParams) (data : value)
  : option string :=
  match data with
  | VUndefined => required_error params
  | _ => invalid_type_error params
  end.

Definition type_issue (params : RawCreateParams) (path : string) (data : value)
  : ZodIssue :=
  mkIssue invalid_type path (type_issue_message params data).

Inductive ParseReturn (A : Type) : Type :=
| OK (value : A)
| INVALID (issues : list ZodIssue).

Arguments OK {A} value.
Arguments INVALID {A} issues.

Definition issues_of {A : Type} (r : ParseReturn A) : list ZodIssue :=
  match r with
  | OK _ => []
  | INVALID issues => issues
  end.

(** [z.enum(values, params)] *)
Record ZodEnum : Type := mkEnum {
  enum_values : list string;
  enum_params : RawCreateParams
}.

Definition ZodEnum_parse (schema : ZodEnum) (path : string) (data : value)
  : ParseReturn string :=
  match data with
  | VString s =>
      if existsb (String.eqb s) (enum_values schema) then OK s
      else INVALID [mkIssue invalid_enum_value path None]
  | _ => INVALID [type_issue (enum_params schema) path data]
  end.

(** [z.number(params).min(v, msg).max(v, msg)]: both bounds are inclusive. *)
Inductive ZodNumberCheck : Type :=
| check_min (bound : float) (message : string)
| check_max (bound : float) (message : string).

Record ZodNumber : Type := mkNumber {
  number_params : RawCreateParams;
  number_checks : list ZodNumberCheck
}.

Definition run_check (path : string) (x : float) (c : ZodNumberCheck)
  : list ZodIssue :=
  match c with
  | check_min bound message =>
      if (x <? bound)%float then [mkIssue too_small path (Some message)] else []
  | check_max bound message =>
      if (bound <? x)%float then [mkIssue too_big path (Some message)] else []
  end.

(** Every check runs; the datum is valid when none of them raised an
    issue. *)
Definition ZodNumber_parse (schema : ZodNumber) (path : string) (data : value)
  : ParseReturn float :=
  match data with
  | VNumber x =>
      match getParsedType data with
      | zpt_number =>
          match flat_map (run_check path x) (number_checks schema) with
          | [] => OK x
          | issues => INVALID issues
          end
      | _ => INVALID [type_issue (number_params schema) path data]
      end
  | _ => INVALID [type_issue (number_params schema) path data]
  end.

(** [z.string(params)] *)
Record ZodString : Type := mkString {
  string_params : RawCreateParams
}.

Definition ZodString_parse (schema : ZodString) (path : string) (data : value)
  : ParseReturn string :=
  match data with
  | VString s => OK s
  | _ => INVALID [type_issue (string_params schema) path data]
  end.

End Zod.

(** ** [client/src/lib/calorie-calculator.ts] *)

Module CalorieCalculator.
Import JS.

Definition calculateBMR (gender : string) (weight height age : float) : float :=
  let bmr :=
    if String.eqb gender "male"
    then ((10 * weight) + (6.25 * height) - (5 * age) + 5)%float
    else ((10 * weight) + (6.25 * height) - (5 * age) - 161)%float in
  Math_round bmr.

Definition calculateDailyCalories (bmr activityMultiplier : float) : float :=
  Math_round (bmr * activityMultiplier)%float.

Definition descriptions : object_literal :=
  [ ("1.2", VString "Sedentary lifestyle");
    ("1.375", VString "Lightly active");
    ("1.55", VString "Moderately active");
    ("1.725", VString "Very active");
    ("1.9", VString "Super active") ].

Definition getActivityDescription (activityLevel : string) : value :=
  logical_or (Get descriptions activityLevel) (VString "Unknown activity level").

(** Neither function contains a [throw], and the arithmetic operators and
    [Math.round] never throw on numbers: every call completes normally. *)
Definition call_calculateBMR (gender : string) (weight height age : float)
  : completion float :=
  Return (calculateBMR gender weight height age).

Definition call_calculateDailyCalories (bmr activityMultiplier : float)
  : completion float :=
  Return (calculateDailyCalories bmr activityMultiplier).

Definition call_getActivityDescription (activityLevel : string)
  : completion value :=
  Return (getActivityDescription activityLevel).

(** The five multipliers the form offers, and the keys of [descriptions]. *)
Definition activity_multipliers : list float :=
  [1.2; 1.375; 1.55; 1.725; 1.9]%float.

Definition activity_keys : list string := map fst descriptions.

End CalorieCalculator.

(** ** [client/src/pages/home.tsx]: the schema, the submit handler and the
    page state *)

Module Home.
Import JS Zod CalorieCalculator.

(** [z.object] over the five fields of the form. *)
Record CalorieFormShape : Type := mkShape {
  shape_gender : ZodEnum;
  shape_age : ZodNumber;
  shape_weight : ZodNumber;
  shape_height : ZodNumber;
  shape_activityLevel : ZodString
}.

Definition calorieFormSchema : CalorieFormShape := {|
  shape_gender :=
    mkEnum ["male"; "female"]
           (mkParams (Some "Please select your gender") None);
  shape_age :=
    mkNumber (mkParams (Some "Age is required") (Some "Age must be a number"))
             [ check_min 16 "Age must be at least 16";
               check_max 100 "Age must be at most 100" ];
  shape_weight :=
    mkNumber (mkParams (Some "Weight is required")
                       (Some "Weight must be a number"))
             [ check_min 30 "Weight must be at least 30 kg";
               check_max 300 "Weight must be at most 300 kg" ];
  shape_height :=
    mkNumber (mkParams (Some "Height is required")
                       (Some "Height must be a number"))
             [ check_min 120 "Height must be at least 120 cm";
               check_max 250 "Height must be at most 250 cm" ];
  shape_activityLevel :=
    mkString (mkParams (Some "Please select your activity level") None)
|}.

(** The values the form holds before validation; an absent field is
    [VUndefined]. *)
Record RawFormData : Type := mkRaw {
  raw_gender : value;
  raw_age : value;
  raw_weight : value;
  raw_height : value;
  raw_activityLevel : value
}.

(** [CalorieFormData], the type the schema infers. *)
Record CalorieFormData : Type := mkData {
  gender : string;
  age : float;
  weight : float;
  height : float;
  activityLevel : string
}.

Inductive SafeParseReturnType : Type :=
| ParseSuccess (data : CalorieFormData)
| ParseError (issues : list ZodIssue).

(** Every field is parsed, in the order of the shape; the issues of all of
    them are gathered. *)
Definition safeParse (schema : CalorieFormShape) (raw : RawFormData)
  : SafeParseReturnType :=
  let g := ZodEnum_parse (shape_gender schema) "gender" (raw_gender raw) in
  let a := ZodNumber_parse (shape_age schema) "age" (raw_age raw) in
  let w := ZodNumber_parse (shape_weight schema) "weight" (raw_weight raw) in
  let h := ZodNumber_parse (shape_height schema) "height" (raw_height raw) in
  let l := ZodString_parse (shape_activityLevel schema) "activityLevel"
                           (raw_activityLevel raw) in
  match g, a, w, h, l with
  | OK g', OK a', OK w', OK h', OK l' => ParseSuccess (mkData g' a' w' h' l')
  | _, _, _, _, _ =>
      ParseError (issues_of g ++ issues_of a ++ issues_of w ++ issues_of h
                  ++ issues_of l)
  end.

(** The issues validation reports for a raw form; none when it is valid. *)
Definition validate (raw : RawFormData) : list ZodIssue :=
  match safeParse calorieFormSchema raw with
  | ParseSuccess _ => []
  | ParseError issues => issues
  end.

Record CalculationResult : Type := mkResult {
  bmr : float;
  dailyCalories : float;
  activityMultiplier : float;
  activityDescription : value;
  formula : string
}.

(** The callback [onSubmit] hands to [setTimeout]: scroll the results
    section into view. *)
Inductive timer_callback : Type :=
| scrollResultsIntoView.

(** The state of the page: the two [useState] cells, the values of the form
    and the timers waiting to fire (callback and delay in ms). *)
Record HomeState : Type := mkState {
  showResults : bool;
  calculationResult : option CalculationResult;
  formValues : RawFormData;
  timers : list (timer_callback * Z)
}.

(** The values of the form once it is mounted: [defaultValues] gives the
    gender; the three inputs registered with [valueAsNumber] are empty,
    which reads as NaN; no activity level is chosen. *)
Definition defaultValues : RawFormData :=
  mkRaw (VString "male") (VNumber nan) (VNumber nan) (VNumber nan) VUndefined.

Definition initialState : HomeState :=
  mkState false None defaultValues [].

Section Page.

(** The host's [parseFloat]; the handler only relies on it being a
    function of its argument. *)
Variable parseFloat : string -> float.

Definition onSubmit (data : CalorieFormData) (st : HomeState) : HomeState :=
  let bmr := calculateBMR (gender data) (weight data) (height data) (age data) in
  let activityMultiplier := parseFloat (activityLevel data) in
  let dailyCalories := calculateDailyCalories bmr activityMultiplier in
  let activityDescription := getActivityDescription (activityLevel data) in
  let formula :=
    if String.eqb (gender data) "male"
    then "BMR = (10 × weight) + (6.25 × height) - (5 × age) + 5"
    else "BMR = (10 × weight) + (6.25 × height) - (5 × age) - 161" in
  {| showResults := true;
     calculationResult :=
       Some (mkResult bmr dailyCalories activityMultiplier
                      activityDescription formula);
     formValues := formValues st;
     timers := timers st ++ [(scrollResultsIntoView, 100%Z)] |}.

(** [form.reset({ gender: "male" })] puts the gender back to "male" and
    drops the activity level; the three registered number inputs keep what
    was typed into them. *)
Definition resetCalculator (st : HomeState) : HomeState :=
  {| showResults := false;
     calculationResult := None;
     formValues :=
       mkRaw (VString "male") (raw_age (formValues st))
             (raw_weight (formValues st)) (raw_height (formValues st))
             VUndefined;
     timers := timers st |}.

(** [form.handleSubmit(onSubmit)] with the zod resolver: the handler runs
    only on a form the schema accepts. *)
Definition handleSubmit (st : HomeState) : HomeState :=
  match safeParse calorieFormSchema (formValues st) with
  | ParseSuccess data => onSubmit data st
  | ParseError _ => st
  end.

End Page.

End Home.

(** ** The rules the statements below are phrased with *)

Module Rules.
Import JS CalorieCalculator.

(** A multiplier is recognized when it is [===] to one of the five. *)
Definition is_recognized_multiplier (m : float) : bool :=
  existsb (fun k => (m =? k)%float) activity_multipliers.

(** The property names every object literal inherits. *)
Definition inherited_names : list string :=
  "constructor" :: "__proto__" :: ObjectPrototype_functions.

(** The rule each field of the form has to meet: gender is one of the two
    values; age, weight and height are numbers inside their inclusive range
    (NaN is inside none); the activity level is a string. *)
Definition gender_ok (v : value) : bool :=
  match v with
  | VString s => String.eqb s "male" || String.eqb s "female"
  | _ => false
  end.

Definition number_in_range (lo hi : float) (v : value) : bool :=
  match v with
  | VNumber x => (lo <=? x)%float && (x <=? hi)%float
  | _ => false
  end.

Definition activityLevel_ok (v : value) : bool :=
  match v with
  | VString _ => true
  | _ => false
  end.

(** The fields of a raw form that break their rule, in the order of the
    schema. *)
Definition violated_fields (raw : Home.RawFormData) : list string :=
  (if gender_ok (Home.raw_gender raw) then [] else ["gender"]) ++
  (if number_in_range 16 100 (Home.raw_age raw) then [] else ["age"]) ++
  (if number_in_range 30 300 (Home.raw_weight raw) then [] else ["weight"]) ++
  (if number_in_range 120 250 (Home.raw_height raw) then [] else ["height"]) ++
  (if activityLevel_ok (Home.raw_activityLevel raw) then []
   else ["activityLevel"]).

End Rules.

(** ** Sample inputs *)

Module Samples.
Import JS.

(** A valid form, and the same form with one field replaced. *)
Definition sample_form : Home.RawFormData :=
  Home.mkRaw (VString "male") (VNumber 25) (VNumber 70) (VNumber 175)
             (VString "1.55").

Definition with_gender (v : value) : Home.RawFormData :=
  Home.mkRaw v (VNumber 25) (VNumber 70) (VNumber 175) (VString "1.55").

Definition with_age (x : float) : Home.RawFormData :=
  Home.mkRaw (VString "male") (VNumber x) (VNumber 70) (VNumber 175)
             (VString "1.55").

Definition with_weight (x : float) : Home.RawFormData :=
  Home.mkRaw (VString "male") (VNumber 25) (VNumber x) (VNumber 175)
             (VString "1.55").

Definition with_height (x : float) : Home.RawFormData :=
  Home.mkRaw (VString "male") (VNumber 25) (VNumber 70) (VNumber x)
             (VString "1.55").

(** Age 10, weight 10, height 500: three fields out of range. *)
Definition three_violations : Home.RawFormData :=
  Home.mkRaw (VString "male") (VNumber 10) (VNumber 10) (VNumber 500)
             (VString "1.55").

(** The age 16 + 13·2^-48, printed 16.000000000000046. *)
Definition age_above_16 : float := 0x1.000000000000dp+4%float.

(** A form inside every range on which the male and female results are 167
    apart. *)
Definition offset_167_form : Home.RawFormData :=
  Home.mkRaw (VString "male") (VNumber age_above_16) (VNumber 137.75)
             (VNumber 120) (VString "1.2").

End Samples.

(** ** Checks by evaluation over finite ranges *)

Module Checks.
Import JS CalorieCalculator.

(** The integers [lo, lo + 1, ..., lo + n - 1]. *)
Fixpoint Z_range_from (n : nat) (lo : Z) : list Z :=
  match n with
  | O => []
  | S n' => lo :: Z_range_from n' (lo + 1)%Z
  end.

Definition Z_range (lo n : Z) : list Z := Z_range_from (Z.to_nat n) lo.

(** The same number, bit for bit. *)
Definition same_number (x y : float) : bool := PrimFloat.Leibniz.eqb x y.

(** The integer [z], between 0 and 2^63, as a number, by the primitive
    conversion. *)
Definition Z2float63 (z : Z) : float := of_uint63 (Uint63Axioms.of_Z z).

Definition conversions_agree_at (z : Z) : bool :=
  same_number (Z2float z) (Z2float63 z).

(** With [t = q / 4] as the unrounded, un-offset sum: rounding [t + 5] gives
    166 more than rounding [t - 161]. *)
Definition offset_166_at (q : Z) : bool :=
  let t := (Z2float63 q / 4)%float in
  same_number (Math_round (t + 5)%float)
              (Math_round (t - 161)%float + 166)%float.

(** The steps of the sum [10·weight + 6.25·height − 5·age] for a weight of
    [k] tenths of a kilogram, a height of [H] cm and an age of [A] years:
    each step is exact. *)
Definition tenths_times_ten_at (k : Z) : bool :=
  same_number (10 * (Z2float63 k / 10))%float (Z2float63 k).

Definition plus_height_at (k H : Z) : bool :=
  same_number (Z2float63 k + 6.25 * Z2float63 H)%float
              (Z2float63 (4 * k + 25 * H) / 4)%float.

Definition minus_age_at (s A : Z) : bool :=
  same_number (Z2float63 s / 4 - 5 * Z2float63 A)%float
              (Z2float63 (s - 20 * A) / 4)%float.

(** In exact arithmetic, with [t = q / 4]: [t + 5] rounds to
    [floor ((q + 22) / 4)] and [t - 161] to [floor ((q - 642) / 4)]. *)
Definition exact_round_at (q : Z) : bool :=
  same_number (Math_round (Z2float63 q / 4 + 5)%float)
              (Z2float63 ((q + 22) / 4))
  && same_number (Math_round (Z2float63 q / 4 - 161)%float)
                 (Z2float63 ((q - 642) / 4)).

(** The five multipliers with their exact values in thousandths. *)
Definition multiplier_thousandths : list (float * Z) :=
  [ (1.2%float, 1200%Z); (1.375%float, 1375%Z); (1.55%float, 1550%Z);
    (1.725%float, 1725%Z); (1.9%float, 1900%Z) ].

(** In exact arithmetic, [b × p / 1000] rounds to
    [floor ((b × p + 500) / 1000)]. *)
Definition exact_daily_at (b : Z) : bool :=
  forallb (fun mp : float * Z =>
             same_number (calculateDailyCalories (Z2float63 b) (fst mp))
                         (Z2float63 ((b * snd mp + 500) / 1000)))
          multiplier_thousandths.

End Checks.

(** ** [client/src/pages/home.tsx]: the controls of the form and what the
    page shows *)

Module Page.
Import JS Zod CalorieCalculator Home.

(** The two [RadioGroupItem]s of the gender group. *)
Inductive GenderItem : Type :=
| item_male
| item_female.

Definition gender_item_value (g : GenderItem) : string :=
  match g with
  | item_male => "male"
  | item_female => "female"
  end.

(** The five [SelectItem]s of the activity level select. *)
Inductive ActivityItem : Type :=
| item_sedentary
| item_lightly_active
| item_moderately_active
| item_very_active
| item_super_active.

Definition activity_item_value (it : ActivityItem) : string :=
  match it with
  | item_sedentary => "1.2"
  | item_lightly_active => "1.375"
  | item_moderately_active => "1.55"
  | item_very_active => "1.725"
  | item_super_active => "1.9"
  end.

Definition activity_item_label (it : ActivityItem) : string :=
  match it with
  | item_sedentary => "Sedentary (little/no exercise)"
  | item_lightly_active => "Lightly active (light exercise 1-3 days/week)"
  | item_moderately_active =>
      "Moderately active (moderate exercise 3-5 days/week)"
  | item_very_active => "Very active (hard exercise 6-7 days/week)"
  | item_super_active => "Super active (very hard exercise, physical job)"
  end.

(** What the user can do on the page: pick a gender, type into one of the
    three number inputs (registered with [valueAsNumber], so the form
    receives a number, NaN for an empty input), pick an activity level,
    submit the form, press "Calculate Again". *)
Inductive event : Type :=
| GenderChanged (g : GenderItem)
| AgeInput (x : float)
| WeightInput (x : float)
| HeightInput (x : float)
| ActivityLevelChanged (it : ActivityItem)
| FormSubmitted
| CalculateAgainClicked.

(** [form.setValue(name, value)] and the change of a registered input, field
    by field. *)
Definition setValue_gender (v : value) (raw : RawFormData) : RawFormData :=
  mkRaw v (raw_age raw) (raw_weight raw) (raw_height raw)
        (raw_activityLevel raw).

Definition setValue_age (v : value) (raw : RawFormData) : RawFormData :=
  mkRaw (raw_gender raw) v (raw_weight raw) (raw_height raw)
        (raw_activityLevel raw).

Definition setValue_weight (v : value) (raw : RawFormData) : RawFormData :=
  mkRaw (raw_gender raw) (raw_age raw) v (raw_height raw)
        (raw_activityLevel raw).

Definition setValue_height (v : value) (raw : RawFormData) : RawFormData :=
  mkRaw (raw_gender raw) (raw_age raw) (raw_weight raw) v
        (raw_activityLevel raw).

Definition setValue_activityLevel (v : value) (raw : RawFormData)
  : RawFormData :=
  mkRaw (raw_gender raw) (raw_age raw) (raw_weight raw) (raw_height raw) v.

Definition with_formValues (st : HomeState) (raw : RawFormData) : HomeState :=
  {| showResults := showResults st;
     calculationResult := calculationResult st;
     formValues := raw;
     timers := timers st |}.

(** The results card is rendered under [showResults && calculationResult]. *)
Definition resultsSection (st : HomeState) : option CalculationResult :=
  if showResults st then calculationResult st else None.

Section Events.

Variable parseFloat : string -> float.

(** One event. The "Calculate Again" button is part of the results card, so
    it can only be pressed while the card is rendered. *)
Definition step (st : HomeState) (ev : event) : HomeState :=
  match ev with
  | GenderChanged g =>
      with_formValues
        st (setValue_gender (VString (gender_item_value g)) (formValues st))
  | AgeInput x =>
      with_formValues st (setValue_age (VNumber x) (formValues st))
  | WeightInput x =>
      with_formValues st (setValue_weight (VNumber x) (formValues st))
  | HeightInput x =>
      with_formValues st (setValue_height (VNumber x) (formValues st))
  | ActivityLevelChanged it =>
      with_formValues
        st (setValue_activityLevel (VString (activity_item_value it))
                                   (formValues st))
  | FormSubmitted => handleSubmit parseFloat st
  | CalculateAgainClicked =>
      match resultsSection st with
      | Some _ => resetCalculator st
      | None => st
      end
  end.

(** The page after a sequence of events, from its first render. *)
Definition run (events : list event) : HomeState :=
  fold_left step events initialState.

End Events.

End Page.

(** ** What the further statements are phrased with *)

Module PageRules.
Import JS Zod CalorieCalculator Home Page.

(** The number each option of the select stands for, and its entry in
    [descriptions]. *)
Definition activity_item_multiplier (it : ActivityItem) : float :=
  match it with
  | item_sedentary => 1.2
  | item_lightly_active => 1.375
  | item_moderately_active => 1.55
  | item_very_active => 1.725
  | item_super_active => 1.9
  end%float.

Definition activity_item_thousandths (it : ActivityItem) : Z :=
  match it with
  | item_sedentary => 1200
  | item_lightly_active => 1375
  | item_moderately_active => 1550
  | item_very_active => 1725
  | item_super_active => 1900
  end%Z.

Definition activity_item_description (it : ActivityItem) : string :=
  match it with
  | item_sedentary => "Sedentary lifestyle"
  | item_lightly_active => "Lightly active"
  | item_moderately_active => "Moderately active"
  | item_very_active => "Very active"
  | item_super_active => "Super active"
  end.

(** A host [parseFloat] that reads the five option values as the numbers
    they denote. *)
Definition reads_the_options (parseFloat : string -> float) : Prop :=
  forall it : ActivityItem,
    parseFloat (activity_item_value it) = activity_item_multiplier it.

(** A [parseFloat] defined on the five option values only (NaN elsewhere). *)
Definition parseFloat_of_options (s : string) : float :=
  if String.eqb s "1.2" then 1.2%float
  else if String.eqb s "1.375" then 1.375%float
  else if String.eqb s "1.55" then 1.55%float
  else if String.eqb s "1.725" then 1.725%float
  else if String.eqb s "1.9" then 1.9%float
  else nan.

(** The record [onSubmit] builds from the data. *)
Definition submitted_result (parseFloat : string -> float)
           (data : CalorieFormData) : CalculationResult :=
  (mkResult
     (calculateBMR (gender data) (weight data) (height data) (age data))
     (calculateDailyCalories
        (calculateBMR (gender data) (weight data) (height data) (age data))
        (parseFloat (activityLevel data)))
     (parseFloat (activityLevel data))
     (getActivityDescription (activityLevel data))
     (if String.eqb (gender data) "male"
      then "BMR = (10 × weight) + (6.25 × height) - (5 × age) + 5"
      else "BMR = (10 × weight) + (6.25 × height) - (5 × age) - 161")).

(** Data inside the ranges of the schema. *)
Definition data_in_ranges (data : CalorieFormData) : Prop :=
  (gender data = "male" \/ gender data = "female") /\
  ((16 <=? age data) && (age data <=? 100))%float = true /\
  ((30 <=? weight data) && (weight data <=? 300))%float = true /\
  ((120 <=? height data) && (height data <=? 250))%float = true.

(** The exact value of the Mifflin-St Jeor formula, halves rounded up, for a
    weight of [k] tenths of a kilogram, a height of [H] cm and an age of [A]
    years: [floor (k + 6.25·H − 5·A + c + 1/2)] with [c = 5] for "male" and
    [c = −161] otherwise. *)
Definition exact_bmr (g : string) (k H A : Z) : Z :=
  ((4 * k + 25 * H - 20 * A
    + (if String.eqb g "male" then 22 else - 642)) / 4)%Z.

(** The exact value of [b × p / 1000], halves rounded up. *)
Definition exact_daily (b p : Z) : Z := ((b * p + 500) / 1000)%Z.

(** The message the schema attaches to a number field, by the kind of the
    datum. *)
Definition number_field_issue (path : string) (lo hi : float)
           (required not_a_number at_least at_most : string) (v : value)
  : list ZodIssue :=
  match v with
  | VUndefined => [mkIssue invalid_type path (Some required)]
  | VNumber x =>
      if is_nan x then [mkIssue invalid_type path (Some not_a_number)]
      else if negb (lo <=? x)%float
           then [mkIssue too_small path (Some at_least)]
      else if negb (x <=? hi)%float
           then [mkIssue too_big path (Some at_most)]
      else []
  | _ => [mkIssue invalid_type path (Some not_a_number)]
  end.

(** The issue of the gender field and of the activity level field, by the
    kind of the datum ([None]: no message is given in the schema). *)
Definition gender_issue (v : value) : list ZodIssue :=
  match v with
  | VString s =>
      if String.eqb s "male" || String.eqb s "female" then []
      else [mkIssue invalid_enum_value "gender" None]
  | VUndefined =>
      [mkIssue invalid_type "gender" (Some "Please select your gender")]
  | _ => [mkIssue invalid_type "gender" None]
  end.

Definition activityLevel_issue (v : value) : list ZodIssue :=
  match v with
  | VString _ => []
  | VUndefined =>
      [mkIssue invalid_type "activityLevel"
               (Some "Please select your activity level")]
  | _ => [mkIssue invalid_type "activityLevel" None]
  end.

(** The values the controls of the page can put into the form: the gender
    is the value of one of the two radio items; each number field is absent
    or a number; the activity level is absent or the value of one of the
    five options. *)
Definition form_values_wellformed (raw : RawFormData) : Prop :=
  (exists g, raw_gender raw = VString (gender_item_value g)) /\
  (raw_age raw = VUndefined \/ exists x, raw_age raw = VNumber x) /\
  (raw_weight raw = VUndefined \/ exists x, raw_weight raw = VNumber x) /\
  (raw_height raw = VUndefined \/ exists x, raw_height raw = VNumber x) /\
  (raw_activityLevel raw = VUndefined \/
   exists it, raw_activityLevel raw = VString (activity_item_value it)).

(** A result computed by [onSubmit] from data inside the ranges, with the
    activity level of one of the five options. *)
Definition result_from_valid_form (parseFloat : string -> float)
           (r : CalculationResult) : Prop :=
  exists data it,
    data_in_ranges data /\
    activityLevel data = activity_item_value it /\
    r = submitted_result parseFloat data.

Definition page_invariant (parseFloat : string -> float) (st : HomeState)
  : Prop :=
  (showResults st = true <-> calculationResult st <> None) /\
  form_values_wellformed (formValues st) /\
  (forall r, calculationResult st = Some r ->
             result_from_valid_form parseFloat r).

(** The values of the form are inside the ranges when they come from whole
    numbers of tenths, centimetres and years inside them. *)
Definition age_accepted_at (A : Z) : bool :=
  Rules.number_in_range 16 100 (VNumber (Checks.Z2float63 A)).

Definition weight_accepted_at (k : Z) : bool :=
  Rules.number_in_range 30 300 (VNumber (Checks.Z2float63 k / 10)).

Definition height_accepted_at (H : Z) : bool :=
  Rules.number_in_range 120 250 (VNumber (Checks.Z2float63 H)).

(** The names of the five fields, in the order of the schema. *)
Definition field_names : list string :=
  ["gender"; "age"; "weight"; "height"; "activityLevel"].

End PageRules.

(** ** The formula and the rules as the specification words them *)

Module SpecFormula.
Import JS CalorieCalculator.
Import Stdlib.QArith.QArith Stdlib.QArith.Qround.

(** The exact value of a number, as a fraction; NaN and the infinities have
    none. *)
Definition float_value (x : float) : option Q :=
  match Prim2SF x with
  | S754_zero _ => Some 0%Q
  | S754_finite s m e =>
      let v := if s then Z.neg m else Z.pos m in
      Some (if (0 <=? e)%Z then inject_Z (v * 2 ^ e)
            else Qmake v (Pos.pow 2 (Z.to_pos (- e))))
  | _ => None
  end.

(** Rounding to the nearest integer, halves up. *)
Definition spec_round (q : Q) : Z := Qfloor (q + (1 # 2))%Q.

(** The specification's formula, in exact arithmetic:
    [round (10·weight + 6.25·height − 5·age + 5)] for male and
    [round (10·weight + 6.25·height − 5·age − 161)] for female. *)
Definition spec_computeBMR (male : bool) (weight height age : Q) : Z :=
  spec_round (10 * weight + (25 # 4) * height - 5 * age
              + (if male then 5 else - (161)))%Q.

(** The same on the exact values of three numbers. *)
Definition spec_computeBMR_at (male : bool) (weight height age : float)
  : option Z :=
  match float_value weight, float_value height, float_value age with
  | Some w, Some h, Some a => Some (spec_computeBMR male w h a)
  | _, _, _ => None
  end.

(** The specification's rule for the activity level: one of the five fixed
    values. *)
Definition spec_activityLevel_ok (v : value) : bool :=
  match v with
  | VString s => existsb (String.eqb s) activity_keys
  | _ => false
  end.

(** The fields that are invalid for the specification: as for the schema,
    but with the closed set of activity levels. *)
Definition spec_violated_fields (raw : Home.RawFormData) : list string :=
  (if Rules.gender_ok (Home.raw_gender raw) then [] else ["gender"]) ++
  (if Rules.number_in_range 16 100 (Home.raw_age raw) then [] else ["age"]) ++
  (if Rules.number_in_range 30 300 (Home.raw_weight raw) then []
   else ["weight"]) ++
  (if Rules.number_in_range 120 250 (Home.raw_height raw) then []
   else ["height"]) ++
  (if spec_activityLevel_ok (Home.raw_activityLevel raw) then []
   else ["activityLevel"]).

(** Age 10, weight 10 and the activity level "2.0", the rest valid. *)
Definition unlisted_level_form : Home.RawFormData :=
  Home.mkRaw (VString "male") (VNumber 10) (VNumber 10) (VNumber 175)
             (VString "2.0").

(** A weight one step below the number 30.05, with a whole height and a
    whole age. *)
Definition rounding_form : Home.RawFormData :=
  Home.mkRaw (VString "male") (VNumber 16) (VNumber 30.049999999999997)
             (VNumber 120) (VString "1.2").

End SpecFormula.

(** ** The order on binary64 numbers

    Facts about [<?] and [<=?] that the validation proofs need, obtained from
    the specification of the primitive comparisons over [spec_float]. *)

Module FloatOrder.

Ltac order_cases :=
  repeat match goal with
  | s : bool |- _ => destruct s
  end;
  cbn; try congruence;
  change IntDef.Z.compare with Z.compare in *;
  change (PosDef.Pos.compare_cont Eq) with Pos.compare in *;
  repeat match goal with
  | |- context [Z.compare ?a ?b] => destruct (Z.compare_spec a b)
  | |- context [Pos.compare ?a ?b] => destruct (Pos.compare_spec a b)
  | H : context [Z.compare ?a ?b] |- _ => destruct (Z.compare_spec a b)
  | H : context [Pos.compare ?a ?b] |- _ => destruct (Pos.compare_spec a b)
  end;
  cbn in *; subst; try congruence; try lia.

(** Two numbers denoted by different literals are different. *)
Ltac float_discriminate H :=
  apply (f_equal Prim2SF) in H; vm_compute in H; discriminate H.

Lemma SFcompare_antisym (a b : spec_float) :
  SFcompare b a = option_map CompOpp (SFcompare a b).
Proof.
  destruct a as [sa|sa| |sa ma ea], b as [sb|sb| |sb mb eb]; cbn;
    try reflexivity; order_cases.
Qed.

Lemma SFcompare_refl (a : spec_float) :
  a <> S754_nan -> SFcompare a a = Some Eq.
Proof.
  destruct a as [sa|sa| |sa ma ea]; intros H; cbn; try congruence; order_cases.
Qed.

Lemma SFltb_leb_trans (a b c : spec_float) :
  SFltb a b = true -> SFleb b c = true -> SFltb a c = true.
Proof.
  unfold SFltb, SFleb.
  destruct a as [sa|sa| |sa ma ea], b as [sb|sb| |sb mb eb],
           c as [sc|sc| |sc mc ec];
    cbn; try congruence; intros H1 H2; order_cases.
Qed.

Lemma SFltb_asym (a b : spec_float) :
  SFltb a b = true -> SFltb b a = false.
Proof.
  unfold SFltb. rewrite (SFcompare_antisym a b).
  destruct (SFcompare a b) as [[]|]; cbn; congruence.
Qed.

Lemma SFltb_negb_leb (a b : spec_float) :
  a <> S754_nan -> b <> S754_nan -> SFltb a b = negb (SFleb b a).
Proof.
  intros Ha Hb. unfold SFltb, SFleb. rewrite (SFcompare_antisym a b).
  destruct a as [sa|sa| |sa ma ea], b as [sb|sb| |sb mb eb];
    try congruence; cbn; order_cases.
Qed.

Lemma is_nan_spec (x : float) : is_nan x = true <-> Prim2SF x = S754_nan.
Proof.
  unfold is_nan. rewrite eqb_spec. unfold SFeqb. split.
  - intros H. destruct (Prim2SF x) as [s|s| |s m e] eqn:E; try reflexivity;
      rewrite SFcompare_refl in H by congruence; discriminate.
  - intros ->. reflexivity.
Qed.

Lemma not_nan_spec (x : float) : is_nan x = false <-> Prim2SF x <> S754_nan.
Proof.
  rewrite <- is_nan_spec. destruct (is_nan x); split; congruence.
Qed.

(** NaN is below nothing and nothing is below it. *)
Lemma leb_nan_r (x y : float) : is_nan x = true -> (y <=? x)%float = false.
Proof.
  intros H. apply is_nan_spec in H. rewrite leb_spec, H. unfold SFleb.
  destruct (Prim2SF y); reflexivity.
Qed.

Lemma leb_nan_l (x y : float) : is_nan x = true -> (x <=? y)%float = false.
Proof.
  intros H. apply is_nan_spec in H. rewrite leb_spec, H. reflexivity.
Qed.

(** On numbers, [x < y] is the negation of [y <= x]. *)
Lemma ltb_negb_leb (x y : float) :
  is_nan x = false -> is_nan y = false ->
  (x <? y)%float = negb (y <=? x)%float.
Proof.
  intros Hx Hy. rewrite ltb_spec, leb_spec.
  apply SFltb_negb_leb; apply not_nan_spec; assumption.
Qed.

(** A number below the lower bound of a range is not above its upper
    bound. *)
Lemma ltb_below_not_above (x lo hi : float) :
  (lo <=? hi)%float = true -> (x <? lo)%float = true -> (hi <? x)%float = false.
Proof.
  rewrite leb_spec, !ltb_spec. intros Hr Hx.
  apply SFltb_asym. eapply SFltb_leb_trans; eassumption.
Qed.

End FloatOrder.

(** ** Properties of the calculator functions *)

Module CalculatorProofs.
Import JS CalorieCalculator Rules Samples Checks FloatOrder.

(** [round_half_up v e] is the integer [n] with
    [n - 1/2 <= v·2^e < n + 1/2]. *)
Lemma round_half_up_spec (v e : Z) :
  (e < 0)%Z ->
  ((2 * round_half_up v e - 1) * 2 ^ (- e) <= 2 * v
   < (2 * round_half_up v e + 1) * 2 ^ (- e))%Z.
Proof.
  intros He. unfold round_half_up.
  rewrite Z.shiftr_div_pow2, Z.shiftl_mul_pow2 by lia.
  assert (E : (2 ^ (- e) = 2 * 2 ^ (- e - 1))%Z).
  { rewrite <- Z.pow_succ_r by lia. f_equal. lia. }
  rewrite E. clear E.
  set (d := (2 ^ (- e - 1))%Z).
  assert (Hd : (0 < d)%Z) by (apply Z.pow_pos_nonneg; lia).
  pose proof (Z.div_mod (v + 1 * d) (2 * d) ltac:(lia)) as D.
  pose proof (Z.mod_pos_bound (v + 1 * d) (2 * d) ltac:(lia)) as B.
  set (n := ((v + 1 * d) / (2 * d))%Z) in *.
  set (r := ((v + 1 * d) mod (2 * d))%Z) in *.
  clearbody n r d. nia.
Qed.

(** The unrounded values of the two worked examples. *)
Example bmr_male_unrounded :
  ((10 * 70) + (6.25 * 175) - (5 * 25) + 5)%float = 1673.75%float.
Proof. vm_compute. reflexivity. Qed.

Example bmr_female_unrounded :
  ((10 * 60) + (6.25 * 165) - (5 * 30) - 161)%float = 1320.25%float.
Proof. vm_compute. reflexivity. Qed.

(** [Math.round] sends a half to the integer above it, in both signs. *)
Example Math_round_halves :
  map Math_round [0.5; 1.5; 2.5; (-0.5); (-1.5); (-2.5); 2594.7]%float
  = [1; 2; 3; (-0); (-1); (-2); 2595]%float.
Proof. vm_compute. reflexivity. Qed.

(** NaN, the infinities, the zeros and integral values are returned as they
    are; the largest number below one half rounds to zero. *)
Example Math_round_special_values :
  map Math_round
      [nan; infinity; neg_infinity; 0; (-0); 1674; 9007199254740992;
       0.49999999999999994; 4503599627370495.5]%float
  = [nan; infinity; neg_infinity; 0; (-0); 1674; 9007199254740992;
     0; 4503599627370496]%float.
Proof. vm_compute. reflexivity. Qed.

(** The two branches of [calculateBMR], in the arithmetic of JavaScript
    numbers, and the two worked examples: male 70 kg, 175 cm, 25 years gives
    1674, female 60 kg, 165 cm, 30 years gives 1320. *)
Theorem calculateBMR_formula :
  (forall w h a : float,
      calculateBMR "male" w h a
      = Math_round (10 * w + 6.25 * h - 5 * a + 5)%float /\
      calculateBMR "female" w h a
      = Math_round (10 * w + 6.25 * h - 5 * a - 161)%float) /\
  calculateBMR "male" 70 175 25 = 1674%float /\
  calculateBMR "female" 60 165 30 = 1320%float.
Proof.
  split; [intros w h a; split; reflexivity|].
  split; vm_compute; reflexivity.
Qed.


(** "male" takes the first branch. *)
Lemma calculateBMR_then_branch (w h a : float) :
  calculateBMR "male" w h a = Math_round (10 * w + 6.25 * h - 5 * a + 5)%float.
Proof. reflexivity. Qed.

(** Every sex string other than "male" takes the else branch. *)
Lemma calculateBMR_else_branch (g : string) (w h a : float) :
  g <> "male" ->
  calculateBMR g w h a = Math_round (10 * w + 6.25 * h - 5 * a - 161)%float.
Proof.
  intros Hg. unfold calculateBMR.
  destruct (String.eqb_spec g "male") as [E|_]; [contradiction|reflexivity].
Qed.

(** C3, as stated, fails: the sex value "other" is outside the enumeration,
    and the call returns 1320, the value of the female branch, instead of
    signalling an error. *)
Lemma calculateBMR_other_sex_returns :
  "other" <> "male" /\ "other" <> "female" /\
  call_calculateBMR "other" 60 165 30 = Return 1320%float /\
  call_calculateBMR "other" 60 165 30 = call_calculateBMR "female" 60 165 30 /\
  (forall e, call_calculateBMR "other" 60 165 30 <> Throw e).
Proof.
  repeat split; try discriminate; vm_compute; reflexivity.
Qed.

(** C3, amended. [calculateBMR] never signals an error: for every sex value
    other than "male", inside the enumeration or not, the call returns
    [Math.round (10·weight + 6.25·height − 5·age − 161)], the result of the
    female branch. *)
Theorem calculateBMR_non_male_is_female_branch (g : string) (w h a : float) :
  g <> "male" ->
  call_calculateBMR g w h a
  = Return (Math_round (10 * w + 6.25 * h - 5 * a - 161)%float) /\
  call_calculateBMR g w h a = call_calculateBMR "female" w h a.
Proof.
  intros Hg. unfold call_calculateBMR.
  rewrite (calculateBMR_else_branch g) by assumption.
  rewrite (calculateBMR_else_branch "female") by discriminate.
  split; reflexivity.
Qed.

Lemma calculateBMR_non_male_witness :
  call_calculateBMR "other" 60 165 30
  = Return (Math_round (10 * 60 + 6.25 * 165 - 5 * 30 - 161)%float) /\
  call_calculateBMR "other" 60 165 30 = call_calculateBMR "female" 60 165 30.
Proof.
  apply (calculateBMR_non_male_is_female_branch "other" 60 165 30).
  discriminate.
Defined.

(** C4, as stated, fails: 2 is none of the five multipliers, and the call
    returns [Math.round (1674 × 2) = 3348] instead of raising. *)
Lemma calculateDailyCalories_unrecognized_returns :
  is_recognized_multiplier 2 = false /\
  call_calculateDailyCalories 1674 2 = Return 3348%float /\
  (forall e, call_calculateDailyCalories 1674 2 <> Throw e).
Proof.
  repeat split; try discriminate; vm_compute; reflexivity.
Qed.

(** C4, amended. For every multiplier that is not one of the five fixed
    values, [calculateDailyCalories] raises nothing: it returns
    [Math.round (bmr × multiplier)] with the multiplier it was given. *)
Theorem calculateDailyCalories_unrecognized (bmr m : float) :
  is_recognized_multiplier m = false ->
  call_calculateDailyCalories bmr m = Return (Math_round (bmr * m)%float).
Proof. intros _. reflexivity. Qed.

Lemma calculateDailyCalories_unrecognized_witness :
  call_calculateDailyCalories 1674 2 = Return (Math_round (1674 * 2)%float).
Proof.
  apply (calculateDailyCalories_unrecognized 1674 2).
  vm_compute. reflexivity.
Defined.

(** The five keys yield their descriptions. *)
Lemma getActivityDescription_table :
  map getActivityDescription activity_keys
  = [ VString "Sedentary lifestyle"; VString "Lightly active";
      VString "Moderately active"; VString "Very active";
      VString "Super active" ].
Proof. reflexivity. Qed.

(** A key that is neither in the table nor inherited yields the fallback
    string. *)
Lemma getActivityDescription_fallback (s : string) :
  ~ In s activity_keys -> ObjectPrototype_get s = None ->
  getActivityDescription s = VString "Unknown activity level".
Proof.
  intros Hk Hp. unfold getActivityDescription, Get, descriptions.
  cbn [own_property].
  repeat match goal with
  | |- context [String.eqb ?k s] =>
      destruct (String.eqb_spec k s) as [E|E];
      [exfalso; apply Hk; rewrite <- E; cbn; tauto|clear E]
  end.
  rewrite Hp. reflexivity.
Qed.

(** "0", a negative value and "2.0" all yield the fallback string. *)
Example getActivityDescription_unlisted_numbers :
  map getActivityDescription ["0"; "-1"; "2.0"; "2"; "1.20"; ""]
  = repeat (VString "Unknown activity level") 6.
Proof. reflexivity. Qed.

(** The inherited names are exactly the keys found on [Object.prototype]. *)
Lemma ObjectPrototype_get_inherited (s : string) :
  In s inherited_names <-> ObjectPrototype_get s <> None.
Proof.
  unfold ObjectPrototype_get, inherited_names.
  destruct (String.eqb_spec s "constructor") as [->|Hc].
  { split; [discriminate|intros _; left; reflexivity]. }
  destruct (String.eqb_spec s "__proto__") as [->|Hp].
  { split; [discriminate|intros _; right; left; reflexivity]. }
  destruct (existsb (String.eqb s) ObjectPrototype_functions) eqn:E.
  - split; [discriminate|intros _].
    apply existsb_exists in E. destruct E as [k [Hk E]].
    apply String.eqb_eq in E. subst k. right; right; exact Hk.
  - split; [|congruence]. intros [H|[H|H]]; try congruence.
    exfalso. assert (existsb (String.eqb s) ObjectPrototype_functions = true).
    { apply existsb_exists. exists s. split; [exact H|apply String.eqb_refl]. }
    congruence.
Qed.

(** An inherited name yields the inherited built-in, not a string. *)
Lemma getActivityDescription_inherited (s : string) :
  In s inherited_names ->
  exists o, getActivityDescription s = VObject o.
Proof.
  intros H. assert (Hn : ~ In s activity_keys).
  { intros Hk. cbn in H, Hk.
    repeat match goal with
    | H : _ \/ _ |- _ => destruct H as [H|H]
    | H : False |- _ => destruct H
    end; subst; discriminate. }
  apply ObjectPrototype_get_inherited in H.
  unfold getActivityDescription, Get, descriptions. cbn [own_property].
  repeat match goal with
  | |- context [String.eqb ?k s] =>
      destruct (String.eqb_spec k s) as [E|E];
      [exfalso; apply Hn; rewrite <- E; cbn; tauto|clear E]
  end.
  unfold ObjectPrototype_get in *.
  destruct (s =? "constructor"); [eexists; reflexivity|].
  destruct (s =? "__proto__"); [eexists; reflexivity|].
  destruct (existsb (String.eqb s) ObjectPrototype_functions);
    [eexists; reflexivity|congruence].
Qed.

(** C5 at the input "constructor": the key is none of the five, yet the
    lookup finds the inherited [Object] function, which is truthy, so
    [getActivityDescription] returns that function and not the fallback
    string "Unknown activity level". *)
Theorem getActivityDescription_inherited_key :
  ~ In "constructor" activity_keys /\
  getActivityDescription "constructor" = VObject ObjectConstructor /\
  getActivityDescription "constructor" <> VString "Unknown activity level".
Proof.
  split; [|split; [reflexivity|discriminate]].
  cbn. intros H.
  repeat match goal with
  | H : _ \/ _ |- _ => destruct H as [H|H]
  | H : False |- _ => destruct H
  end; discriminate.
Qed.

Lemma Z_range_from_In (n : nat) (lo q : Z) :
  (lo <= q < lo + Z.of_nat n)%Z -> In q (Z_range_from n lo).
Proof.
  revert lo. induction n as [|n IH]; intros lo H; [lia|].
  cbn [Z_range_from]. destruct (Z.eq_dec lo q) as [E|E].
  - left. exact E.
  - right. apply IH. lia.
Qed.

Lemma Z_range_In (lo n q : Z) :
  (lo <= q < lo + n)%Z -> In q (Z_range lo n).
Proof.
  intros H. unfold Z_range. apply Z_range_from_In. lia.
Qed.

Lemma forallb_Z_range (f : Z -> bool) (lo n z : Z) :
  forallb f (Z_range lo n) = true -> (lo <= z < lo + n)%Z -> f z = true.
Proof.
  intros C H. rewrite forallb_forall in C. apply C, Z_range_In, H.
Qed.

Lemma same_number_eq (x y : float) : same_number x y = true -> x = y.
Proof. apply FloatAxioms.Leibniz.eqb_spec. Qed.

Lemma offset_166_checked :
  forallb offset_166_at (Z_range 0 20001) = true.
Proof. vm_compute. reflexivity. Qed.

Lemma conversions_agree_checked :
  forallb conversions_agree_at (Z_range 0 20001) = true.
Proof. vm_compute. reflexivity. Qed.

Lemma Z2float_63 (z : Z) : (0 <= z <= 20000)%Z -> Z2float z = Z2float63 z.
Proof.
  intros H. apply same_number_eq.
  apply (forallb_Z_range conversions_agree_at 0 20001 z
                         conversions_agree_checked). lia.
Qed.

Lemma offset_166_quarters (q : Z) :
  (0 <= q <= 20000)%Z ->
  let t := (Z2float q / 4)%float in
  Math_round (t + 5)%float = (Math_round (t - 161)%float + 166)%float.
Proof.
  intros H. rewrite Z2float_63 by exact H. apply same_number_eq.
  apply (forallb_Z_range offset_166_at 0 20001 q offset_166_checked). lia.
Qed.

Lemma tenths_times_ten_checked :
  forallb tenths_times_ten_at (Z_range 300 2701) = true.
Proof. vm_compute. reflexivity. Qed.

Lemma plus_height_checked :
  forallb (fun k => forallb (plus_height_at k) (Z_range 120 131))
          (Z_range 300 2701) = true.
Proof. vm_compute. reflexivity. Qed.

Lemma minus_age_checked :
  forallb (fun s => forallb (minus_age_at s) (Z_range 16 85))
          (Z_range 4200 14051) = true.
Proof. vm_compute. reflexivity. Qed.

Lemma exact_round_checked :
  forallb exact_round_at (Z_range 2200 15731) = true.
Proof. vm_compute. reflexivity. Qed.

Lemma exact_daily_checked :
  forallb exact_daily_at (Z_range 0 5001) = true.
Proof. vm_compute. reflexivity. Qed.

(** For a weight of [k] tenths, a height of [H] and an age of [A] inside the
    ranges of the form, the sum is computed exactly: it is the quarter
    [(4k + 25H − 20A) / 4]. *)
Lemma form_sum_exact (k H A : Z) :
  (300 <= k <= 3000)%Z -> (120 <= H <= 250)%Z -> (16 <= A <= 100)%Z ->
  (10 * (Z2float k / 10) + 6.25 * Z2float H - 5 * Z2float A)%float
  = (Z2float (4 * k + 25 * H - 20 * A) / 4)%float.
Proof.
  intros Hk HH HA.
  rewrite !Z2float_63 by lia.
  rewrite (same_number_eq _ _
             (forallb_Z_range tenths_times_ten_at 300 2701 k
                              tenths_times_ten_checked ltac:(lia))).
  pose proof (forallb_Z_range _ 300 2701 k plus_height_checked ltac:(lia))
    as S2.
  cbv beta in S2.
  rewrite (same_number_eq _ _
             (forallb_Z_range (plus_height_at k) 120 131 H S2 ltac:(lia))).
  pose proof (forallb_Z_range _ 4200 14051 (4 * k + 25 * H)%Z
                              minus_age_checked ltac:(lia)) as S3.
  cbv beta in S3.
  rewrite (same_number_eq _ _
             (forallb_Z_range (minus_age_at (4 * k + 25 * H)) 16 85 A S3
                              ltac:(lia))).
  reflexivity.
Qed.

(** On the inputs the form produces, the results are those of exact
    arithmetic: with [q = 4k + 25H − 20A] (four times the un-offset sum),
    the male result is [floor ((q + 22) / 4)] and the female result
    [floor ((q − 642) / 4)]. *)
Lemma calculateBMR_exact_on_form (k H A : Z) :
  (300 <= k <= 3000)%Z -> (120 <= H <= 250)%Z -> (16 <= A <= 100)%Z ->
  calculateBMR "male" (Z2float k / 10) (Z2float H) (Z2float A)
  = Z2float ((4 * k + 25 * H - 20 * A + 22) / 4) /\
  calculateBMR "female" (Z2float k / 10) (Z2float H) (Z2float A)
  = Z2float ((4 * k + 25 * H - 20 * A - 642) / 4).
Proof.
  intros Hk HH HA.
  rewrite calculateBMR_then_branch.
  rewrite (calculateBMR_else_branch "female") by discriminate.
  rewrite (form_sum_exact k H A Hk HH HA).
  set (q := (4 * k + 25 * H - 20 * A)%Z).
  assert (Hq : (2200 <= q <= 17930)%Z) by (subst q; lia).
  pose proof (forallb_Z_range exact_round_at 2200 15731 q exact_round_checked
                              ltac:(lia)) as C.
  unfold exact_round_at in C. apply andb_prop in C. destruct C as [Cm Cf].
  apply same_number_eq in Cm, Cf.
  assert (Hm : (0 <= (q + 22) / 4 <= 20000)%Z).
  { split; [apply Z.div_pos; lia|].
    apply Z.div_le_upper_bound; lia. }
  assert (Hf : (0 <= (q - 642) / 4 <= 20000)%Z).
  { split; [apply Z.div_pos; lia|].
    apply Z.div_le_upper_bound; lia. }
  rewrite !Z2float_63 by lia. split; assumption.
Qed.

(** For a whole bmr up to 5000 and each of the five multipliers, the daily
    calories are those of exact decimal arithmetic, halves rounded up. *)
Lemma calculateDailyCalories_exact (b : Z) (m : float) (p : Z) :
  (0 <= b <= 5000)%Z -> In (m, p) multiplier_thousandths ->
  calculateDailyCalories (Z2float b) m = Z2float ((b * p + 500) / 1000).
Proof.
  intros Hb Hm.
  pose proof (forallb_Z_range exact_daily_at 0 5001 b exact_daily_checked
                              ltac:(lia)) as C.
  unfold exact_daily_at in C. rewrite forallb_forall in C.
  specialize (C (m, p) Hm). apply same_number_eq in C. cbn [fst snd] in C.
  assert (Hr : (0 <= (b * p + 500) / 1000 <= 20000)%Z).
  { cbn in Hm.
    repeat match goal with
    | H : _ \/ _ |- _ => destruct H as [H|H]
    | H : False |- _ => destruct H
    | H : (_, _) = (_, _) |- _ => injection H as <- <-
    end;
    (split; [apply Z.div_pos; lia|apply Z.div_le_upper_bound; lia]). }
  rewrite !Z2float_63 by lia. exact C.
Qed.

(** C10, as stated, fails: weight 137.75, height 120 and age
    16.000000000000046 (the number 16 + 13·2^-48) pass the range checks of
    the form; the un-offset sum is 2047.5 − 2^-42, adding 5 rounds it up to
    2052.5 while subtracting 161 is exact, so the male result is 2053 and
    the female result 1886: they differ by 167. *)
Lemma calculateBMR_offset_167 :
  (age_above_16 =? 16.000000000000046)%float = true /\
  ((10 * 137.75) + (6.25 * 120) - (5 * age_above_16))%float
  = 0x1.ffdffffffffffp+10%float /\
  (0x1.ffdffffffffffp+10 + 5)%float = 2052.5%float /\
  calculateBMR "male" 137.75 120 age_above_16 = 2053%float /\
  calculateBMR "female" 137.75 120 age_above_16 = 1886%float /\
  (1886 + 166)%float = 2052%float /\
  calculateBMR "male" 137.75 120 age_above_16
  <> (calculateBMR "female" 137.75 120 age_above_16 + 166)%float.
Proof.
  repeat split; try (vm_compute; reflexivity).
  intros H. float_discriminate H.
Qed.

(** C10, amended. For every weight, height, age and every gender value [g]
    other than "male", [calculateBMR g] equals [calculateBMR "female"]; and
    whenever the sum [10·weight + 6.25·height − 5·age], as computed, is a
    multiple of 0.25 between 0 and 5000, [calculateBMR "male"] equals
    [calculateBMR "female" + 166]; this is the case for every weight that is
    a multiple of 0.1 from 30 to 300, every whole height from 120 to 250 and
    every whole age from 16 to 100. *)
Theorem calculateBMR_gender_offset :
  (forall (g : string) (w h a : float),
      g <> "male" -> calculateBMR g w h a = calculateBMR "female" w h a) /\
  (forall (w h a : float) (q : Z),
      (0 <= q <= 20000)%Z ->
      (10 * w + 6.25 * h - 5 * a)%float = (Z2float q / 4)%float ->
      calculateBMR "male" w h a
      = (calculateBMR "female" w h a + 166)%float) /\
  (forall k H A : Z,
      (300 <= k <= 3000)%Z -> (120 <= H <= 250)%Z -> (16 <= A <= 100)%Z ->
      calculateBMR "male" (Z2float k / 10) (Z2float H) (Z2float A)
      = (calculateBMR "female" (Z2float k / 10) (Z2float H) (Z2float A)
         + 166)%float).
Proof.
  assert (Q : forall (w h a : float) (q : Z),
             (0 <= q <= 20000)%Z ->
             (10 * w + 6.25 * h - 5 * a)%float = (Z2float q / 4)%float ->
             calculateBMR "male" w h a
             = (calculateBMR "female" w h a + 166)%float).
  { intros w h a q Hq Ht. rewrite calculateBMR_then_branch.
    rewrite (calculateBMR_else_branch "female") by discriminate.
    rewrite Ht. apply (offset_166_quarters q Hq). }
  split; [|split; [exact Q|]].
  - intros g w h a Hg. rewrite (calculateBMR_else_branch g) by assumption.
    rewrite (calculateBMR_else_branch "female") by discriminate. reflexivity.
  - intros k H A Hk HH HA.
    apply (Q _ _ _ (4 * k + 25 * H - 20 * A)%Z); [lia|].
    apply form_sum_exact; assumption.
Qed.

Lemma calculateBMR_gender_offset_witness :
  calculateBMR "other" 70 175 25 = calculateBMR "female" 70 175 25 /\
  calculateBMR "male" 70 175 25 = (calculateBMR "female" 70 175 25 + 166)%float /\
  calculateBMR "male" (Z2float 705 / 10) (Z2float 175) (Z2float 25)
  = (calculateBMR "female" (Z2float 705 / 10) (Z2float 175) (Z2float 25)
     + 166)%float.
Proof.
  destruct calculateBMR_gender_offset as [H1 [H2 H3]].
  split; [|split].
  - apply H1. discriminate.
  - apply (H2 70%float 175%float 25%float 6675%Z);
      [lia|vm_compute; reflexivity].
  - apply (H3 705%Z 175%Z 25%Z); lia.
Defined.

End CalculatorProofs.

(** ** Properties of the form validation and of the submit handler *)

Module HomeProofs.
Import JS Zod CalorieCalculator Home Rules Samples Checks FloatOrder.

(** The issues of a form are those of its five fields, in order. *)
Lemma validate_fields (raw : RawFormData) :
  validate raw
  = (issues_of (ZodEnum_parse (shape_gender calorieFormSchema) "gender"
                              (raw_gender raw))
     ++ issues_of (ZodNumber_parse (shape_age calorieFormSchema) "age"
                                   (raw_age raw))
     ++ issues_of (ZodNumber_parse (shape_weight calorieFormSchema) "weight"
                                   (raw_weight raw))
     ++ issues_of (ZodNumber_parse (shape_height calorieFormSchema) "height"
                                   (raw_height raw))
     ++ issues_of (ZodString_parse (shape_activityLevel calorieFormSchema)
                                   "activityLevel" (raw_activityLevel raw)))%list.
Proof.
  unfold validate, safeParse.
  destruct (ZodEnum_parse _ _ _), (ZodNumber_parse (shape_age _) _ _),
    (ZodNumber_parse (shape_weight _) _ _),
    (ZodNumber_parse (shape_height _) _ _), (ZodString_parse _ _ _);
    reflexivity.
Qed.

Lemma gender_field_paths (v : value) :
  map issue_path
      (issues_of (ZodEnum_parse (shape_gender calorieFormSchema) "gender" v))
  = if gender_ok v then [] else ["gender"].
Proof.
  destruct v; try reflexivity. cbn.
  destruct (String.eqb s "male"), (String.eqb s "female"); reflexivity.
Qed.

(** A number field with an inclusive range raises exactly one issue when
    the datum is not a number of the range, and none otherwise. *)
Lemma number_field_paths (params : RawCreateParams) (lo hi : float)
      (m1 m2 path : string) (v : value) :
  (lo <=? hi)%float = true ->
  map issue_path
      (issues_of (ZodNumber_parse
                    (mkNumber params [check_min lo m1; check_max hi m2])
                    path v))
  = if number_in_range lo hi v then [] else [path].
Proof.
  intros Hr. destruct v; try reflexivity. cbn.
  assert (Hlo : is_nan lo = false).
  { destruct (is_nan lo) eqn:E; [|reflexivity].
    rewrite (leb_nan_l lo hi E) in Hr. discriminate. }
  assert (Hhi : is_nan hi = false).
  { destruct (is_nan hi) eqn:E; [|reflexivity].
    rewrite (leb_nan_r hi lo E) in Hr. discriminate. }
  destruct (is_nan x) eqn:N.
  - rewrite (leb_nan_r x lo N). reflexivity.
  - rewrite (ltb_negb_leb x lo N Hlo), (ltb_negb_leb hi x Hhi N).
    destruct (lo <=? x)%float eqn:L, (x <=? hi)%float eqn:H; try reflexivity.
    exfalso.
    assert (B : (x <? lo)%float = true)
      by (rewrite (ltb_negb_leb x lo N Hlo), L; reflexivity).
    pose proof (ltb_below_not_above x lo hi Hr B) as A.
    rewrite (ltb_negb_leb hi x Hhi N), H in A. discriminate.
Qed.

Lemma activityLevel_field_paths (v : value) :
  map issue_path
      (issues_of (ZodString_parse (shape_activityLevel calorieFormSchema)
                                  "activityLevel" v))
  = if activityLevel_ok v then [] else ["activityLevel"].
Proof. destruct v; reflexivity. Qed.

(** Validation reports one issue for each violated field and nothing
    else. *)
Lemma validate_paths (raw : RawFormData) :
  map issue_path (validate raw) = violated_fields raw.
Proof.
  rewrite validate_fields, !map_app. unfold violated_fields.
  rewrite gender_field_paths, activityLevel_field_paths.
  cbn [calorieFormSchema shape_age shape_weight shape_height].
  rewrite !number_field_paths by (vm_compute; reflexivity).
  reflexivity.
Qed.

(** A form raises no issue exactly when no field breaks its rule. *)
Lemma validate_nil_iff (raw : RawFormData) :
  validate raw = [] <-> violated_fields raw = [].
Proof.
  rewrite <- validate_paths. destruct (validate raw); cbn; split; congruence.
Qed.

Lemma with_age_violated (x : float) :
  violated_fields (with_age x)
  = if number_in_range 16 100 (VNumber x) then [] else ["age"].
Proof.
  unfold violated_fields, with_age.
  cbn [raw_gender raw_age raw_weight raw_height raw_activityLevel].
  change (gender_ok (VString "male")) with true.
  change (number_in_range 30 300 (VNumber 70)) with true.
  change (number_in_range 120 250 (VNumber 175)) with true.
  destruct (number_in_range 16 100 (VNumber x)); reflexivity.
Qed.

Lemma with_weight_violated (x : float) :
  violated_fields (with_weight x)
  = if number_in_range 30 300 (VNumber x) then [] else ["weight"].
Proof.
  unfold violated_fields, with_weight.
  cbn [raw_gender raw_age raw_weight raw_height raw_activityLevel].
  change (gender_ok (VString "male")) with true.
  change (number_in_range 16 100 (VNumber 25)) with true.
  change (number_in_range 120 250 (VNumber 175)) with true.
  destruct (number_in_range 30 300 (VNumber x)); reflexivity.
Qed.

Lemma with_height_violated (x : float) :
  violated_fields (with_height x)
  = if number_in_range 120 250 (VNumber x) then [] else ["height"].
Proof.
  unfold violated_fields, with_height.
  cbn [raw_gender raw_age raw_weight raw_height raw_activityLevel].
  change (gender_ok (VString "male")) with true.
  change (number_in_range 16 100 (VNumber 25)) with true.
  change (number_in_range 30 300 (VNumber 70)) with true.
  destruct (number_in_range 120 250 (VNumber x)); reflexivity.
Qed.

(** C6. The ranges are inclusive: on a form that is valid otherwise, an age
    [x] raises no issue exactly when [16 <= x <= 100], a weight exactly when
    [30 <= x <= 300], a height exactly when [120 <= x <= 250]. So age 16 and
    100, weight 30 and 300, height 120 and 250 are accepted, while age 15
    and weight 29.9 raise [too_small] and age 101 and height 251 raise
    [too_big], each on its own field. *)
Theorem validate_boundaries :
  (forall x : float,
      validate (with_age x) = []
      <-> ((16 <=? x) && (x <=? 100))%float = true) /\
  (forall x : float,
      validate (with_weight x) = []
      <-> ((30 <=? x) && (x <=? 300))%float = true) /\
  (forall x : float,
      validate (with_height x) = []
      <-> ((120 <=? x) && (x <=? 250))%float = true) /\
  validate (with_age 16) = [] /\ validate (with_age 100) = [] /\
  validate (with_weight 30) = [] /\ validate (with_weight 300) = [] /\
  validate (with_height 120) = [] /\ validate (with_height 250) = [] /\
  validate (with_age 15)
  = [mkIssue too_small "age" (Some "Age must be at least 16")] /\
  validate (with_age 101)
  = [mkIssue too_big "age" (Some "Age must be at most 100")] /\
  validate (with_weight 29.9)
  = [mkIssue too_small "weight" (Some "Weight must be at least 30 kg")] /\
  validate (with_height 251)
  = [mkIssue too_big "height" (Some "Height must be at most 250 cm")].
Proof.
  split; [|split; [|split]].
  - intros x. rewrite validate_nil_iff, with_age_violated. cbn.
    destruct ((16 <=? x) && (x <=? 100))%float; split; congruence.
  - intros x. rewrite validate_nil_iff, with_weight_violated. cbn.
    destruct ((30 <=? x) && (x <=? 300))%float; split; congruence.
  - intros x. rewrite validate_nil_iff, with_height_violated. cbn.
    destruct ((120 <=? x) && (x <=? 250))%float; split; congruence.
  - repeat split; vm_compute; reflexivity.
Qed.

(** The three issues of the worked example, in the order of the schema. *)
Example validate_three_violations_issues :
  validate three_violations
  = [ mkIssue too_small "age" (Some "Age must be at least 16");
      mkIssue too_small "weight" (Some "Weight must be at least 30 kg");
      mkIssue too_big "height" (Some "Height must be at most 250 cm") ].
Proof. vm_compute. reflexivity. Qed.

(** C7, amended. No short-circuit: for every input that breaks the rule of
    the schema in exactly three fields (gender not one of the two values;
    age, weight or height not a number inside its range; activity level not
    a string), validation returns exactly three issues, one on each of these
    fields, in the order of the schema. *)
Theorem validate_three_violations_reported (raw : RawFormData) :
  length (violated_fields raw) = 3%nat ->
  length (validate raw) = 3%nat /\
  map issue_path (validate raw) = violated_fields raw.
Proof.
  intros H. rewrite <- (length_map issue_path), validate_paths.
  split; [exact H|reflexivity].
Qed.

Lemma validate_three_violations_witness :
  length (validate three_violations) = 3%nat /\
  map issue_path (validate three_violations)
  = violated_fields three_violations.
Proof.
  apply (validate_three_violations_reported three_violations).
  vm_compute. reflexivity.
Defined.

Lemma gender_ok_false (v : value) :
  v <> VString "male" -> v <> VString "female" -> gender_ok v = false.
Proof.
  intros Hm Hf. destruct v; try reflexivity. cbn.
  destruct (String.eqb_spec s "male") as [->|_]; [congruence|].
  destruct (String.eqb_spec s "female") as [->|_]; [congruence|reflexivity].
Qed.

(** C8. Every gender value other than "male" and "female" is rejected:
    validation raises an issue on the gender field, the parse does not
    succeed, and the submit handler leaves the page as it was, so no result
    is computed for it (in particular not the female one). *)
Theorem validate_rejects_unlisted_gender (raw : RawFormData) :
  raw_gender raw <> VString "male" ->
  raw_gender raw <> VString "female" ->
  (exists i, In i (validate raw) /\ issue_path i = "gender" /\
             (issue_code i = invalid_enum_value \/
              issue_code i = invalid_type)) /\
  (forall data, safeParse calorieFormSchema raw <> ParseSuccess data) /\
  (forall parseFloat st,
      formValues st = raw -> handleSubmit parseFloat st = st).
Proof.
  intros Hm Hf.
  assert (I : exists i, In i (validate raw) /\ issue_path i = "gender" /\
                        (issue_code i = invalid_enum_value \/
                         issue_code i = invalid_type)).
  { rewrite validate_fields. pose proof (gender_ok_false _ Hm Hf) as G.
    destruct (raw_gender raw) as [| | | |s|]; cbn in G |- *;
      try (eexists; split; [left; reflexivity|cbn; auto]).
    destruct (String.eqb s "male"), (String.eqb s "female");
      try discriminate G.
    cbn. eexists; split; [left; reflexivity|cbn; auto]. }
  assert (P : forall data, safeParse calorieFormSchema raw <> ParseSuccess data).
  { intros data E. destruct I as [i [Hi _]].
    unfold validate in Hi. rewrite E in Hi. exact Hi. }
  split; [exact I|split; [exact P|]].
  intros parseFloat st E. unfold handleSubmit. rewrite E.
  destruct (safeParse calorieFormSchema raw) as [data|issues] eqn:S;
    [exfalso; exact (P data eq_refl)|reflexivity].
Qed.

Lemma validate_rejects_unlisted_gender_witness :
  (exists i, In i (validate (with_gender (VString "other"))) /\
             issue_path i = "gender" /\
             (issue_code i = invalid_enum_value \/
              issue_code i = invalid_type)) /\
  (forall data,
      safeParse calorieFormSchema (with_gender (VString "other"))
      <> ParseSuccess data) /\
  (forall parseFloat st,
      formValues st = with_gender (VString "other") ->
      handleSubmit parseFloat st = st).
Proof.
  apply (validate_rejects_unlisted_gender (with_gender (VString "other")));
    discriminate.
Defined.

(** What a successful parse tells about the raw form: it held the data, and
    no field broke its rule. *)
Lemma safeParse_success (raw : RawFormData) (data : CalorieFormData) :
  safeParse calorieFormSchema raw = ParseSuccess data ->
  raw = mkRaw (VString (gender data)) (VNumber (age data))
              (VNumber (weight data)) (VNumber (height data))
              (VString (activityLevel data)) /\
  violated_fields raw = [].
Proof.
  intros S. split.
  - destruct raw as [g a w h l]. unfold safeParse in S. cbn [raw_gender
      raw_age raw_weight raw_height raw_activityLevel] in S.
    destruct (ZodEnum_parse _ _ g) as [g'|] eqn:Eg; [|discriminate S].
    destruct (ZodNumber_parse _ _ a) as [a'|] eqn:Ea; [|discriminate S].
    destruct (ZodNumber_parse _ _ w) as [w'|] eqn:Ew; [|discriminate S].
    destruct (ZodNumber_parse _ _ h) as [h'|] eqn:Eh; [|discriminate S].
    destruct (ZodString_parse _ _ l) as [l'|] eqn:El; [|discriminate S].
    injection S as <-. cbn.
    destruct g; try discriminate Eg. cbn in Eg.
    destruct (_ || _); try discriminate Eg. injection Eg as ->.
    destruct l; try discriminate El. injection El as ->.
    unfold ZodNumber_parse in Ea, Ew, Eh.
    destruct a as [| | |xa| |]; try discriminate Ea.
    destruct w as [| | |xw| |]; try discriminate Ew.
    destruct h as [| | |xh| |]; try discriminate Eh.
    destruct (getParsedType (VNumber xa)); try discriminate Ea.
    destruct (getParsedType (VNumber xw)); try discriminate Ew.
    destruct (getParsedType (VNumber xh)); try discriminate Eh.
    destruct (flat_map _ _) in Ea; try discriminate Ea.
    destruct (flat_map _ _) in Ew; try discriminate Ew.
    destruct (flat_map _ _) in Eh; try discriminate Eh.
    injection Ea as ->. injection Ew as ->. injection Eh as ->.
    reflexivity.
  - rewrite <- validate_paths. unfold validate. rewrite S. reflexivity.
Qed.

(** Through the form, the handler only ever sees "male" or "female". *)
Lemma safeParse_success_gender (raw : RawFormData) (data : CalorieFormData) :
  safeParse calorieFormSchema raw = ParseSuccess data ->
  gender data = "male" \/ gender data = "female".
Proof.
  intros S. destruct (safeParse_success raw data S) as [-> V].
  unfold violated_fields in V. cbn [raw_gender] in V.
  destruct (gender_ok (VString (gender data))) eqn:G; [|discriminate V].
  cbn in G. apply orb_prop in G. destruct G as [G|G];
    apply String.eqb_eq in G; auto.
Qed.

(** The form of the 167 example passes validation. *)
Example offset_167_form_is_valid :
  validate offset_167_form = [].
Proof. vm_compute. reflexivity. Qed.

(** What the parse makes of a form the schema accepts. *)
Example safeParse_sample :
  safeParse calorieFormSchema sample_form
  = ParseSuccess (mkData "male" 25 70 175 "1.55").
Proof. vm_compute. reflexivity. Qed.

(** The whole path on the valid sample, for a host whose [parseFloat] reads
    "1.55" as 1.55. *)
Example handleSubmit_sample (parseFloat : string -> float) :
  parseFloat "1.55" = 1.55%float ->
  handleSubmit parseFloat
               (mkState false None sample_form [])
  = mkState true
            (Some (mkResult 1674 2595 1.55 (VString "Moderately active")
                     "BMR = (10 × weight) + (6.25 × height) - (5 × age) + 5"))
            sample_form [(scrollResultsIntoView, 100%Z)].
Proof.
  intros P. unfold handleSubmit. cbn [formValues]. rewrite safeParse_sample.
  unfold onSubmit. cbn [gender age weight height activityLevel formValues
                        timers app]. rewrite P.
  vm_compute. reflexivity.
Qed.

(** C9. The result [onSubmit] stores is a function of the submitted data
    alone: from any two page states, the same data give the same result
    (bmr, dailyCalories, activityMultiplier, activityDescription, formula),
    and so does submitting a second time or after a reset. *)
Theorem onSubmit_deterministic (parseFloat : string -> float)
        (data : CalorieFormData) (st1 st2 : HomeState) :
  calculationResult (onSubmit parseFloat data st1)
  = calculationResult (onSubmit parseFloat data st2) /\
  calculationResult (onSubmit parseFloat data (onSubmit parseFloat data st1))
  = calculationResult (onSubmit parseFloat data st1) /\
  calculationResult (onSubmit parseFloat data (resetCalculator st1))
  = calculationResult (onSubmit parseFloat data st1) /\
  calculationResult (onSubmit parseFloat data st1)
  = Some (mkResult
            (calculateBMR (gender data) (weight data) (height data) (age data))
            (calculateDailyCalories
               (calculateBMR (gender data) (weight data) (height data)
                             (age data))
               (parseFloat (activityLevel data)))
            (parseFloat (activityLevel data))
            (getActivityDescription (activityLevel data))
            (if String.eqb (gender data) "male"
             then "BMR = (10 × weight) + (6.25 × height) - (5 × age) + 5"
             else "BMR = (10 × weight) + (6.25 × height) - (5 × age) - 161")).
Proof. repeat split. Qed.

(** The same through the form: two pages holding the same values show the
    same result after a submit, whatever they showed before, as long as the
    schema accepts the values. *)
Lemma handleSubmit_deterministic (parseFloat : string -> float)
      (st1 st2 : HomeState) (data : CalorieFormData) :
  formValues st1 = formValues st2 ->
  safeParse calorieFormSchema (formValues st1) = ParseSuccess data ->
  calculationResult (handleSubmit parseFloat st1)
  = calculationResult (handleSubmit parseFloat st2).
Proof.
  intros E S. unfold handleSubmit. rewrite <- E, S. reflexivity.
Qed.

End HomeProofs.

(** ** Further properties of the calculator functions *)

Module CalculatorExtras.
Import JS CalorieCalculator Rules Checks Page PageRules FloatOrder.
Import CalculatorProofs.

(** Linear arithmetic with divisions by constants. *)
Ltac div_lia := Z.to_euclidean_division_equations; lia.

(** [calculateBMR] on the inputs of the form, for any gender string. *)
Lemma calculateBMR_exact_bmr (g : string) (k H A : Z) :
  (300 <= k <= 3000)%Z -> (120 <= H <= 250)%Z -> (16 <= A <= 100)%Z ->
  calculateBMR g (Z2float k / 10) (Z2float H) (Z2float A)
  = Z2float (exact_bmr g k H A).
Proof.
  intros Hk HH HA.
  destruct (calculateBMR_exact_on_form k H A Hk HH HA) as [Em Ef].
  unfold exact_bmr. destruct (String.eqb_spec g "male") as [->|Hg].
  - exact Em.
  - rewrite (calculateBMR_else_branch g) by assumption.
    rewrite (calculateBMR_else_branch "female") in Ef by discriminate.
    rewrite Ef. reflexivity.
Qed.

Lemma exact_bmr_bounds (g : string) (k H A : Z) :
  (300 <= k <= 3000)%Z -> (120 <= H <= 250)%Z -> (16 <= A <= 100)%Z ->
  (389 <= exact_bmr g k H A <= 4488)%Z.
Proof.
  intros Hk HH HA. unfold exact_bmr.
  destruct (String.eqb g "male"); div_lia.
Qed.

(** X1. On the inputs the form produces (a weight in tenths of a kilogram
    from 30 to 300, a whole height from 120 to 250, a whole age from 16 to
    100), [calculateBMR] returns, for any gender string, the exact value of
    the formula rounded half up: floating point loses nothing there. The
    result is a whole number between 389 and 4488. *)
Theorem calculateBMR_exact_and_bounded (g : string) (k H A : Z) :
  (300 <= k <= 3000)%Z -> (120 <= H <= 250)%Z -> (16 <= A <= 100)%Z ->
  calculateBMR g (Z2float k / 10) (Z2float H) (Z2float A)
  = Z2float (exact_bmr g k H A) /\
  (389 <= exact_bmr g k H A <= 4488)%Z.
Proof.
  intros Hk HH HA. split.
  - apply calculateBMR_exact_bmr; assumption.
  - apply exact_bmr_bounds; assumption.
Qed.

Lemma calculateBMR_exact_and_bounded_witness :
  calculateBMR "female" (Z2float 605 / 10) (Z2float 165) (Z2float 30)
  = Z2float (exact_bmr "female" 605 165 30) /\
  (389 <= exact_bmr "female" 605 165 30 <= 4488)%Z.
Proof.
  apply (calculateBMR_exact_and_bounded "female" 605 165 30); lia.
Defined.

(** X2. On the inputs of the form, one more year of age lowers the result of
    [calculateBMR] by exactly 5, one more kilogram raises it by exactly 10,
    and one more centimetre raises it by 6 or by 7. *)
Theorem calculateBMR_sensitivity (g : string) (k H A : Z) :
  (300 <= k <= 3000)%Z -> (120 <= H <= 250)%Z -> (16 <= A <= 100)%Z ->
  exists n : Z,
    calculateBMR g (Z2float k / 10) (Z2float H) (Z2float A) = Z2float n /\
    ((A + 1 <= 100)%Z ->
     calculateBMR g (Z2float k / 10) (Z2float H) (Z2float (A + 1))
     = Z2float (n - 5)) /\
    ((k + 10 <= 3000)%Z ->
     calculateBMR g (Z2float (k + 10) / 10) (Z2float H) (Z2float A)
     = Z2float (n + 10)) /\
    ((H + 1 <= 250)%Z ->
     exists d : Z,
       (d = 6 \/ d = 7)%Z /\
       calculateBMR g (Z2float k / 10) (Z2float (H + 1)) (Z2float A)
       = Z2float (n + d)).
Proof.
  intros Hk HH HA. exists (exact_bmr g k H A).
  split; [apply calculateBMR_exact_bmr; assumption|].
  split; [|split].
  - intros HA'. rewrite calculateBMR_exact_bmr by lia.
    f_equal. unfold exact_bmr. destruct (String.eqb g "male"); div_lia.
  - intros Hk'. rewrite calculateBMR_exact_bmr by lia.
    f_equal. unfold exact_bmr. destruct (String.eqb g "male"); div_lia.
  - intros HH'.
    exists (exact_bmr g k (H + 1) A - exact_bmr g k H A)%Z. split.
    + unfold exact_bmr. destruct (String.eqb g "male"); div_lia.
    + rewrite calculateBMR_exact_bmr by lia. f_equal. lia.
Qed.

Lemma calculateBMR_sensitivity_witness :
  exists n : Z,
    calculateBMR "male" (Z2float 700 / 10) (Z2float 175) (Z2float 25)
    = Z2float n /\
    ((25 + 1 <= 100)%Z ->
     calculateBMR "male" (Z2float 700 / 10) (Z2float 175) (Z2float (25 + 1))
     = Z2float (n - 5)) /\
    ((700 + 10 <= 3000)%Z ->
     calculateBMR "male" (Z2float (700 + 10) / 10) (Z2float 175) (Z2float 25)
     = Z2float (n + 10)) /\
    ((175 + 1 <= 250)%Z ->
     exists d : Z,
       (d = 6 \/ d = 7)%Z /\
       calculateBMR "male" (Z2float 700 / 10) (Z2float (175 + 1)) (Z2float 25)
       = Z2float (n + d)).
Proof.
  apply (calculateBMR_sensitivity "male" 700 175 25); lia.
Defined.

(** Each option of the select is one of the five multipliers. *)
Lemma activity_item_in_table (it : ActivityItem) :
  In (activity_item_multiplier it, activity_item_thousandths it)
     multiplier_thousandths.
Proof. destruct it; cbn; auto 6. Qed.

Lemma activity_item_thousandths_bounds (it : ActivityItem) :
  (1200 <= activity_item_thousandths it <= 1900)%Z.
Proof. destruct it; cbn; lia. Qed.

Lemma calculateDailyCalories_exact_daily (b : Z) (it : ActivityItem) :
  (0 <= b <= 5000)%Z ->
  calculateDailyCalories (Z2float b) (activity_item_multiplier it)
  = Z2float (exact_daily b (activity_item_thousandths it)).
Proof.
  intros Hb. apply calculateDailyCalories_exact;
    [exact Hb|apply activity_item_in_table].
Qed.

Lemma exact_daily_bounds (b p : Z) :
  (0 <= b)%Z -> (1200 <= p <= 1900)%Z ->
  (b <= exact_daily b p <= 2 * b)%Z.
Proof.
  intros Hb Hp. unfold exact_daily. split.
  - apply Z.div_le_lower_bound; nia.
  - apply Z.lt_succ_r. apply Z.div_lt_upper_bound; nia.
Qed.

(** X3. For a whole bmr from 0 to 5000 and each of the five activity
    levels, [calculateDailyCalories] returns the exact decimal product
    rounded half up; the result is never below the bmr and never above twice
    the bmr. *)
Theorem calculateDailyCalories_exact_and_bounded (b : Z) (it : ActivityItem) :
  (0 <= b <= 5000)%Z ->
  calculateDailyCalories (Z2float b) (activity_item_multiplier it)
  = Z2float (exact_daily b (activity_item_thousandths it)) /\
  (b <= exact_daily b (activity_item_thousandths it) <= 2 * b)%Z.
Proof.
  intros Hb. split.
  - apply calculateDailyCalories_exact_daily, Hb.
  - apply exact_daily_bounds; [lia|apply activity_item_thousandths_bounds].
Qed.

Lemma calculateDailyCalories_exact_and_bounded_witness :
  calculateDailyCalories (Z2float 1670) (activity_item_multiplier
                                           item_moderately_active)
  = Z2float (exact_daily 1670 (activity_item_thousandths
                                 item_moderately_active)) /\
  (1670 <= exact_daily 1670 (activity_item_thousandths item_moderately_active)
   <= 2 * 1670)%Z.
Proof.
  apply (calculateDailyCalories_exact_and_bounded 1670 item_moderately_active).
  lia.
Defined.

(** X4. [calculateDailyCalories] is monotone on whole bmr values up to 5000
    and the five activity levels: a bmr at least as large with an activity
    level at least as high never gives fewer daily calories. *)
Theorem calculateDailyCalories_monotone (b b' : Z) (it it' : ActivityItem) :
  (0 <= b <= b')%Z -> (b' <= 5000)%Z ->
  (activity_item_thousandths it <= activity_item_thousandths it')%Z ->
  exists n n' : Z,
    calculateDailyCalories (Z2float b) (activity_item_multiplier it)
    = Z2float n /\
    calculateDailyCalories (Z2float b') (activity_item_multiplier it')
    = Z2float n' /\
    (n <= n')%Z.
Proof.
  intros Hb Hb' Hp.
  exists (exact_daily b (activity_item_thousandths it)),
         (exact_daily b' (activity_item_thousandths it')).
  split; [apply calculateDailyCalories_exact_daily; lia|].
  split; [apply calculateDailyCalories_exact_daily; lia|].
  unfold exact_daily. apply Z.div_le_mono; [lia|].
  pose proof (activity_item_thousandths_bounds it).
  pose proof (activity_item_thousandths_bounds it'). nia.
Qed.

Lemma calculateDailyCalories_monotone_witness :
  exists n n' : Z,
    calculateDailyCalories (Z2float 1320)
                           (activity_item_multiplier item_sedentary)
    = Z2float n /\
    calculateDailyCalories (Z2float 1674)
                           (activity_item_multiplier item_very_active)
    = Z2float n' /\
    (n <= n')%Z.
Proof.
  apply (calculateDailyCalories_monotone 1320 1674 item_sedentary
                                         item_very_active);
    cbn; lia.
Defined.

(** X5. Whatever the key, [getActivityDescription] returns a truthy value:
    never [undefined], never the empty string. For every key that is not a
    property name of [Object.prototype] the value is a non-empty string:
    the entry of the table for the five keys, the fallback otherwise. *)
Theorem getActivityDescription_truthy (s : string) :
  ToBoolean (getActivityDescription s) = true /\
  (In s activity_keys ->
   exists d, own_property descriptions s = Some (VString d) /\
             getActivityDescription s = VString d /\ d <> "") /\
  (~ In s activity_keys -> ~ In s inherited_names ->
   getActivityDescription s = VString "Unknown activity level").
Proof.
  split; [|split].
  - unfold getActivityDescription, logical_or.
    destruct (ToBoolean (Get descriptions s)) eqn:E; [exact E|reflexivity].
  - intros H. cbn in H.
    repeat match goal with
    | H : _ \/ _ |- _ => destruct H as [H|H]
    | H : False |- _ => destruct H
    end; subst s; eexists; (split; [reflexivity|split;
                                                  [reflexivity|discriminate]]).
  - intros Hk Hi. apply getActivityDescription_fallback; [exact Hk|].
    destruct (ObjectPrototype_get s) eqn:E; [|reflexivity].
    exfalso. apply Hi. apply ObjectPrototype_get_inherited. congruence.
Qed.

End CalculatorExtras.

(** ** Further properties of the form validation *)

Module HomeExtras.
Import JS Zod CalorieCalculator Home Rules Samples Page PageRules FloatOrder.
Import HomeProofs.

Lemma gender_ok_parse (v : value) :
  gender_ok v = true ->
  exists s, v = VString s /\
            ZodEnum_parse (shape_gender calorieFormSchema) "gender" v = OK s.
Proof.
  destruct v; try discriminate. cbn. intros H. exists s. split; [reflexivity|].
  destruct (String.eqb s "male"), (String.eqb s "female");
    try discriminate H; reflexivity.
Qed.

Lemma number_in_range_not_nan (lo hi x : float) :
  number_in_range lo hi (VNumber x) = true -> is_nan x = false.
Proof.
  cbn. intros H. destruct (is_nan x) eqn:N; [|reflexivity].
  rewrite (leb_nan_r x lo N) in H. discriminate H.
Qed.

(** What [ZodNumber_parse] returns for a range schema, by the kind of the
    datum. *)
Lemma number_field_issue_parse (params : RawCreateParams) (lo hi : float)
      (at_least at_most path required not_a_number : string) (v : value) :
  (lo <=? hi)%float = true ->
  required_error params = Some required ->
  invalid_type_error params = Some not_a_number ->
  issues_of (ZodNumber_parse
               (mkNumber params [check_min lo at_least; check_max hi at_most])
               path v)
  = number_field_issue path lo hi required not_a_number at_least at_most v.
Proof.
  intros Hr Hq Hn.
  assert (Hlo : is_nan lo = false).
  { destruct (is_nan lo) eqn:E; [|reflexivity].
    rewrite (leb_nan_l lo hi E) in Hr. discriminate. }
  assert (Hhi : is_nan hi = false).
  { destruct (is_nan hi) eqn:E; [|reflexivity].
    rewrite (leb_nan_r hi lo E) in Hr. discriminate. }
  destruct v; cbn; unfold type_issue; cbn; rewrite ?Hq, ?Hn; try reflexivity.
  destruct (is_nan x) eqn:N; cbn; [rewrite ?Hn; reflexivity|].
  rewrite (ltb_negb_leb x lo N Hlo), (ltb_negb_leb hi x Hhi N).
  destruct (lo <=? x)%float eqn:L, (x <=? hi)%float eqn:H; try reflexivity.
  exfalso.
  assert (B : (x <? lo)%float = true)
    by (rewrite (ltb_negb_leb x lo N Hlo), L; reflexivity).
  pose proof (ltb_below_not_above x lo hi Hr B) as A.
  rewrite (ltb_negb_leb hi x Hhi N), H in A. discriminate.
Qed.

Lemma number_in_range_parse (params : RawCreateParams) (lo hi : float)
      (m1 m2 path : string) (v : value) :
  (lo <=? hi)%float = true ->
  number_in_range lo hi v = true ->
  exists x, v = VNumber x /\
            ZodNumber_parse (mkNumber params [check_min lo m1; check_max hi m2])
                            path v = OK x.
Proof.
  intros Hr H. destruct v; try discriminate H. exists x. split; [reflexivity|].
  pose proof (number_in_range_not_nan lo hi x H) as N.
  assert (Hlo : is_nan lo = false).
  { destruct (is_nan lo) eqn:E; [|reflexivity].
    rewrite (leb_nan_l lo hi E) in Hr. discriminate. }
  assert (Hhi : is_nan hi = false).
  { destruct (is_nan hi) eqn:E; [|reflexivity].
    rewrite (leb_nan_r hi lo E) in Hr. discriminate. }
  cbn in H. apply andb_prop in H. destruct H as [L U].
  cbn. rewrite N. cbn.
  rewrite (ltb_negb_leb x lo N Hlo), (ltb_negb_leb hi x Hhi N), L, U.
  reflexivity.
Qed.

Lemma activityLevel_ok_parse (v : value) :
  activityLevel_ok v = true ->
  exists s, v = VString s /\
            ZodString_parse (shape_activityLevel calorieFormSchema)
                            "activityLevel" v = OK s.
Proof.
  destruct v; try discriminate. intros _. exists s. split; reflexivity.
Qed.

(** No violated field: each of the five rules holds. *)
Lemma violated_fields_nil (raw : RawFormData) :
  violated_fields raw = [] ->
  gender_ok (raw_gender raw) = true /\
  number_in_range 16 100 (raw_age raw) = true /\
  number_in_range 30 300 (raw_weight raw) = true /\
  number_in_range 120 250 (raw_height raw) = true /\
  activityLevel_ok (raw_activityLevel raw) = true.
Proof.
  unfold violated_fields.
  destruct (gender_ok _), (number_in_range 16 100 _),
    (number_in_range 30 300 _), (number_in_range 120 250 _),
    (activityLevel_ok _); cbn; intros H; try discriminate H; auto.
Qed.

Lemma safeParse_complete (raw : RawFormData) :
  violated_fields raw = [] ->
  exists data, safeParse calorieFormSchema raw = ParseSuccess data.
Proof.
  intros V. apply violated_fields_nil in V.
  destruct V as [G [A [W [H L]]]].
  destruct (gender_ok_parse _ G) as [g [_ Eg]].
  destruct (number_in_range_parse
              (mkParams (Some "Age is required") (Some "Age must be a number"))
              16 100 "Age must be at least 16" "Age must be at most 100" "age"
              _ eq_refl A) as [a [_ Ea]].
  destruct (number_in_range_parse
              (mkParams (Some "Weight is required")
                        (Some "Weight must be a number"))
              30 300 "Weight must be at least 30 kg"
              "Weight must be at most 300 kg" "weight"
              _ eq_refl W) as [w [_ Ew]].
  destruct (number_in_range_parse
              (mkParams (Some "Height is required")
                        (Some "Height must be a number"))
              120 250 "Height must be at least 120 cm"
              "Height must be at most 250 cm" "height"
              _ eq_refl H) as [h [_ Eh]].
  destruct (activityLevel_ok_parse _ L) as [l [_ El]].
  exists (mkData g a w h l). unfold safeParse.
  cbn [calorieFormSchema shape_gender shape_age shape_weight shape_height
       shape_activityLevel] in *.
  rewrite Eg, Ea, Ew, Eh, El. reflexivity.
Qed.

(** X6. Validation accepts exactly the forms on which every field meets its
    rule (gender one of the two values; age, weight and height numbers
    inside their inclusive range; activity level a string), and the data it
    hands on are the values of the form, unchanged. *)
Theorem safeParse_accepts_iff (raw : RawFormData) :
  (violated_fields raw = []
   <-> exists data, safeParse calorieFormSchema raw = ParseSuccess data) /\
  (forall data,
      safeParse calorieFormSchema raw = ParseSuccess data ->
      raw = mkRaw (VString (gender data)) (VNumber (age data))
                  (VNumber (weight data)) (VNumber (height data))
                  (VString (activityLevel data))).
Proof.
  split; [split|].
  - apply safeParse_complete.
  - intros [data S]. apply (safeParse_success raw data S).
  - intros data S. apply (safeParse_success raw data S).
Qed.

Lemma safeParse_success_ranges (raw : RawFormData) (data : CalorieFormData) :
  safeParse calorieFormSchema raw = ParseSuccess data ->
  data_in_ranges data /\
  is_nan (age data) = false /\ is_nan (weight data) = false /\
  is_nan (height data) = false.
Proof.
  intros S. destruct (safeParse_success raw data S) as [E V].
  apply violated_fields_nil in V. rewrite E in V.
  cbn [raw_gender raw_age raw_weight raw_height raw_activityLevel] in V.
  destruct V as [G [A [W [H _]]]].
  split; [|split; [|split]];
    try (eapply number_in_range_not_nan; eassumption).
  unfold data_in_ranges. split; [|split; [|split]]; try assumption.
  cbn in G. apply orb_prop in G.
  destruct G as [G|G]; apply String.eqb_eq in G; auto.
Qed.

(** X7. Whatever validation lets through is inside the ranges: the gender is
    "male" or "female", and age, weight and height are numbers (not NaN)
    with [16 <= age <= 100], [30 <= weight <= 300], [120 <= height <= 250]. *)
Theorem safeParse_data_in_ranges (raw : RawFormData) (data : CalorieFormData) :
  safeParse calorieFormSchema raw = ParseSuccess data ->
  data_in_ranges data /\
  is_nan (age data) = false /\ is_nan (weight data) = false /\
  is_nan (height data) = false.
Proof. apply safeParse_success_ranges. Qed.

Lemma safeParse_data_in_ranges_witness :
  data_in_ranges (mkData "male" 25 70 175 "1.55") /\
  is_nan (age (mkData "male" 25 70 175 "1.55")) = false /\
  is_nan (weight (mkData "male" 25 70 175 "1.55")) = false /\
  is_nan (height (mkData "male" 25 70 175 "1.55")) = false.
Proof.
  apply (safeParse_data_in_ranges sample_form (mkData "male" 25 70 175 "1.55")).
  vm_compute. reflexivity.
Defined.

(** X8. Validation never reports a field twice: the issues are on distinct
    fields of the form, so there are at most five of them. *)
Theorem validate_one_issue_per_field (raw : RawFormData) :
  NoDup (map issue_path (validate raw)) /\
  incl (map issue_path (validate raw)) field_names /\
  (length (validate raw) <= 5)%nat.
Proof.
  rewrite <- (length_map issue_path), validate_paths. unfold violated_fields.
  destruct (gender_ok _), (number_in_range 16 100 _),
    (number_in_range 30 300 _), (number_in_range 120 250 _),
    (activityLevel_ok _); cbn;
    (split; [repeat constructor; cbn; intuition discriminate
            |split; [intros f Hf; cbn in Hf |- *; intuition|lia]]).
Qed.

(** X9. The issues of a form, field by field, with the message each kind of
    datum gets: a missing number gets the "is required" message, a NaN or
    another non-number the "must be a number" message, a number below the
    range the "at least" message, a number above it the "at most" message;
    an unlisted gender string gets [invalid_enum_value]. *)
Theorem validate_messages (raw : RawFormData) :
  validate raw
  = (gender_issue (raw_gender raw)
     ++ number_field_issue "age" 16 100 "Age is required"
          "Age must be a number" "Age must be at least 16"
          "Age must be at most 100" (raw_age raw)
     ++ number_field_issue "weight" 30 300 "Weight is required"
          "Weight must be a number" "Weight must be at least 30 kg"
          "Weight must be at most 300 kg" (raw_weight raw)
     ++ number_field_issue "height" 120 250 "Height is required"
          "Height must be a number" "Height must be at least 120 cm"
          "Height must be at most 250 cm" (raw_height raw)
     ++ activityLevel_issue (raw_activityLevel raw))%list.
Proof.
  rewrite validate_fields.
  cbn [calorieFormSchema shape_gender shape_age shape_weight shape_height
       shape_activityLevel].
  rewrite (number_field_issue_parse
             (mkParams (Some "Age is required") (Some "Age must be a number"))
             16 100 _ _ _ "Age is required" "Age must be a number" _
             eq_refl eq_refl eq_refl).
  rewrite (number_field_issue_parse
             (mkParams (Some "Weight is required")
                       (Some "Weight must be a number"))
             30 300 _ _ _ "Weight is required" "Weight must be a number" _
             eq_refl eq_refl eq_refl).
  rewrite (number_field_issue_parse
             (mkParams (Some "Height is required")
                       (Some "Height must be a number"))
             120 250 _ _ _ "Height is required" "Height must be a number" _
             eq_refl eq_refl eq_refl).
  f_equal; [|f_equal; f_equal; f_equal].
  - destruct (raw_gender raw); try reflexivity. cbn.
    destruct (String.eqb s "male"), (String.eqb s "female"); reflexivity.
  - destruct (raw_activityLevel raw); reflexivity.
Qed.

End HomeExtras.

(** ** Properties of the page: submitting, and what it displays *)

Module PageProofs.
Import JS Zod CalorieCalculator Home Rules Samples Checks Page PageRules.
Import FloatOrder CalculatorProofs HomeProofs CalculatorExtras HomeExtras.

Lemma onSubmit_results (parseFloat : string -> float)
      (data : CalorieFormData) (st : HomeState) :
  resultsSection (onSubmit parseFloat data st)
  = Some (submitted_result parseFloat data) /\
  calculationResult (onSubmit parseFloat data st)
  = Some (submitted_result parseFloat data) /\
  showResults (onSubmit parseFloat data st) = true /\
  formValues (onSubmit parseFloat data st) = formValues st.
Proof. repeat split. Qed.

Lemma handleSubmit_invalid (parseFloat : string -> float) (st : HomeState) :
  violated_fields (formValues st) <> [] -> handleSubmit parseFloat st = st.
Proof.
  intros V. unfold handleSubmit.
  destruct (safeParse calorieFormSchema (formValues st)) as [data|issues] eqn:S;
    [|reflexivity].
  exfalso. apply V. apply (safeParse_success _ data S).
Qed.

(** X10. A submit acts exactly when every field of the form meets its rule:
    then the results card shows the result computed from the values of the
    form; otherwise the page stays as it was, an earlier result included. *)
Theorem handleSubmit_outcome (parseFloat : string -> float) (st : HomeState) :
  (violated_fields (formValues st) = [] ->
   exists data,
     formValues st = mkRaw (VString (gender data)) (VNumber (age data))
                           (VNumber (weight data)) (VNumber (height data))
                           (VString (activityLevel data)) /\
     handleSubmit parseFloat st = onSubmit parseFloat data st /\
     resultsSection (handleSubmit parseFloat st)
     = Some (submitted_result parseFloat data)) /\
  (violated_fields (formValues st) <> [] ->
   handleSubmit parseFloat st = st).
Proof.
  split; [|apply handleSubmit_invalid].
  intros V. destruct (safeParse_complete _ V) as [data S].
  exists data. split; [apply (safeParse_success _ data S)|].
  unfold handleSubmit. rewrite S. split; reflexivity.
Qed.

Lemma handleSubmit_outcome_witness :
  (exists data,
     formValues (mkState false None sample_form [])
     = mkRaw (VString (gender data)) (VNumber (age data))
             (VNumber (weight data)) (VNumber (height data))
             (VString (activityLevel data)) /\
     handleSubmit parseFloat_of_options (mkState false None sample_form [])
     = onSubmit parseFloat_of_options data (mkState false None sample_form [])
     /\
     resultsSection
       (handleSubmit parseFloat_of_options (mkState false None sample_form []))
     = Some (submitted_result parseFloat_of_options data)) /\
  handleSubmit parseFloat_of_options (mkState true None three_violations [])
  = mkState true None three_violations [].
Proof.
  split.
  - apply (handleSubmit_outcome parseFloat_of_options
                                (mkState false None sample_form [])).
    vm_compute. reflexivity.
  - apply (handleSubmit_outcome parseFloat_of_options
                                (mkState true None three_violations [])).
    vm_compute. discriminate.
Defined.

Lemma initialState_invariant (parseFloat : string -> float) :
  page_invariant parseFloat initialState.
Proof.
  split; [|split].
  - cbn. split; [discriminate|congruence].
  - unfold form_values_wellformed. cbn.
    split; [exists item_male; reflexivity|].
    repeat split; try (right; eexists; reflexivity). left; reflexivity.
  - cbn. discriminate.
Qed.

Lemma resetCalculator_invariant (parseFloat : string -> float)
      (st : HomeState) :
  page_invariant parseFloat st ->
  page_invariant parseFloat (resetCalculator st).
Proof.
  intros [_ [[_ [A [W [H _]]]] _]]. split; [|split].
  - cbn. split; [discriminate|congruence].
  - unfold form_values_wellformed. cbn.
    split; [exists item_male; reflexivity|].
    split; [exact A|split; [exact W|split; [exact H|left; reflexivity]]].
  - cbn. discriminate.
Qed.

Lemma with_formValues_invariant (parseFloat : string -> float)
      (st : HomeState) (raw : RawFormData) :
  page_invariant parseFloat st -> form_values_wellformed raw ->
  page_invariant parseFloat (with_formValues st raw).
Proof.
  intros [I1 [_ I3]] W. split; [exact I1|split; [exact W|exact I3]].
Qed.

Lemma handleSubmit_invariant (parseFloat : string -> float)
      (st : HomeState) :
  page_invariant parseFloat st ->
  page_invariant parseFloat (handleSubmit parseFloat st).
Proof.
  intros I. unfold handleSubmit.
  destruct (safeParse calorieFormSchema (formValues st)) as [data|issues] eqn:S;
    [|exact I].
  destruct I as [_ [W _]]. split; [|split].
  - cbn. split; [discriminate|reflexivity].
  - exact W.
  - intros r E. cbn in E. injection E as <-.
    destruct (safeParse_success_ranges _ data S) as [R _].
    destruct (safeParse_success _ data S) as [F _].
    destruct W as [_ [_ [_ [_ [L|[it L]]]]]]; rewrite F in L; cbn in L;
      [discriminate L|].
    injection L as L. exists data, it. repeat split; try apply R; exact L.
Qed.

Lemma step_invariant (parseFloat : string -> float) (st : HomeState)
      (ev : event) :
  page_invariant parseFloat st -> page_invariant parseFloat (step parseFloat st ev).
Proof.
  intros I. destruct ev; cbn [step].
  - apply with_formValues_invariant; [exact I|].
    destruct I as [_ [[_ [A [W [H L]]]] _]].
    split; [exists g; reflexivity|]. cbn. auto.
  - apply with_formValues_invariant; [exact I|].
    destruct I as [_ [[G [_ [W [H L]]]] _]].
    split; [exact G|]. cbn. split; [right; exists x; reflexivity|auto].
  - apply with_formValues_invariant; [exact I|].
    destruct I as [_ [[G [A [_ [H L]]]] _]].
    split; [exact G|]. cbn.
    split; [exact A|split; [right; exists x; reflexivity|auto]].
  - apply with_formValues_invariant; [exact I|].
    destruct I as [_ [[G [A [W [_ L]]]] _]].
    split; [exact G|]. cbn.
    split; [exact A|split; [exact W|split;
                                     [right; exists x; reflexivity|exact L]]].
  - apply with_formValues_invariant; [exact I|].
    destruct I as [_ [[G [A [W [H _]]]] _]].
    split; [exact G|]. cbn.
    split; [exact A|split; [exact W|split; [exact H|]]].
    right. exists it. reflexivity.
  - apply handleSubmit_invariant, I.
  - destruct (resultsSection st); [apply resetCalculator_invariant|];
      exact I.
Qed.

Lemma fold_step_invariant (parseFloat : string -> float)
      (events : list event) (st : HomeState) :
  page_invariant parseFloat st ->
  page_invariant parseFloat (fold_left (step parseFloat) events st).
Proof.
  revert st. induction events as [|ev events IH]; intros st I; [exact I|].
  cbn [fold_left]. apply IH, step_invariant, I.
Qed.

Lemma run_invariant (parseFloat : string -> float) (events : list event) :
  page_invariant parseFloat (run parseFloat events).
Proof. apply fold_step_invariant, initialState_invariant. Qed.

(** X11. After any sequence of events, the two state cells agree: the flag
    [showResults] is set exactly when a result is stored, so the results
    card shows the stored result whenever there is one. *)
Theorem results_card_consistent (parseFloat : string -> float)
        (events : list event) :
  (showResults (run parseFloat events) = true
   <-> calculationResult (run parseFloat events) <> None) /\
  resultsSection (run parseFloat events)
  = calculationResult (run parseFloat events).
Proof.
  destruct (run_invariant parseFloat events) as [I _]. split; [exact I|].
  unfold resultsSection. destruct (showResults _) eqn:E; [reflexivity|].
  destruct (calculationResult _) eqn:C; [|reflexivity].
  destruct I as [_ I]. specialize (I ltac:(discriminate)). discriminate I.
Qed.

(** X12. After any sequence of events, the form holds only what its controls
    can give: in particular the gender is "male" or "female", so a submit
    never raises an issue on the gender field, and the activity level is
    absent or one of the five option values. *)
Theorem form_values_from_controls (parseFloat : string -> float)
        (events : list event) :
  form_values_wellformed (formValues (run parseFloat events)) /\
  ~ In "gender"
       (map issue_path (validate (formValues (run parseFloat events)))).
Proof.
  destruct (run_invariant parseFloat events) as [_ [W _]]. split; [exact W|].
  rewrite validate_paths. unfold violated_fields.
  destruct W as [[g G] _]. rewrite G.
  replace (gender_ok (VString (gender_item_value g))) with true
    by (destruct g; reflexivity).
  cbn [app].
  destruct (number_in_range 16 100 _), (number_in_range 30 300 _),
    (number_in_range 120 250 _), (activityLevel_ok _); cbn;
    intuition discriminate.
Qed.

Lemma activity_item_description_get (it : ActivityItem) :
  getActivityDescription (activity_item_value it)
  = VString (activity_item_description it).
Proof. destruct it; reflexivity. Qed.

(** X13. After any sequence of events, a result on display was computed by
    [onSubmit] from data that passed validation, with one of the five
    activity levels: its description is the entry of that level in the table
    (never the fallback, never an inherited object), its multiplier is what
    [parseFloat] makes of the option value, and its formula text is the one
    of the branch [calculateBMR] took. *)
Theorem displayed_result_from_valid_form (parseFloat : string -> float)
        (events : list event) (r : CalculationResult) :
  resultsSection (run parseFloat events) = Some r ->
  exists data it,
    data_in_ranges data /\
    r = submitted_result parseFloat data /\
    activityDescription r = VString (activity_item_description it) /\
    activityMultiplier r = parseFloat (activity_item_value it) /\
    ((gender data = "male" /\
      bmr r = Math_round (10 * weight data + 6.25 * height data
                          - 5 * age data + 5)%float /\
      formula r = "BMR = (10 × weight) + (6.25 × height) - (5 × age) + 5") \/
     (gender data = "female" /\
      bmr r = Math_round (10 * weight data + 6.25 * height data
                          - 5 * age data - 161)%float /\
      formula r = "BMR = (10 × weight) + (6.25 × height) - (5 × age) - 161")).
Proof.
  intros E. destruct (run_invariant parseFloat events) as [_ [_ I]].
  assert (C : calculationResult (run parseFloat events) = Some r).
  { unfold resultsSection in E. destruct (showResults _); [exact E|discriminate]. }
  destruct (I r C) as [data [it [R [L ->]]]].
  exists data, it. split; [exact R|]. split; [reflexivity|].
  cbn [submitted_result activityDescription activityMultiplier bmr formula].
  rewrite L. split; [apply activity_item_description_get|].
  split; [reflexivity|].
  destruct R as [[G|G] _]; rewrite G; [left|right];
    (split; [reflexivity|split; reflexivity]).
Qed.

Lemma displayed_result_from_valid_form_witness :
  exists data it,
    data_in_ranges data /\
    mkResult 1674 2595 1.55 (VString "Moderately active")
             "BMR = (10 × weight) + (6.25 × height) - (5 × age) + 5"
    = submitted_result parseFloat_of_options data /\
    activityDescription
      (mkResult 1674 2595 1.55 (VString "Moderately active")
                "BMR = (10 × weight) + (6.25 × height) - (5 × age) + 5")
    = VString (activity_item_description it) /\
    activityMultiplier
      (mkResult 1674 2595 1.55 (VString "Moderately active")
                "BMR = (10 × weight) + (6.25 × height) - (5 × age) + 5")
    = parseFloat_of_options (activity_item_value it) /\
    ((gender data = "male" /\
      bmr (mkResult 1674 2595 1.55 (VString "Moderately active")
                    "BMR = (10 × weight) + (6.25 × height) - (5 × age) + 5")
      = Math_round (10 * weight data + 6.25 * height data
                    - 5 * age data + 5)%float /\
      formula (mkResult 1674 2595 1.55 (VString "Moderately active")
                 "BMR = (10 × weight) + (6.25 × height) - (5 × age) + 5")
      = "BMR = (10 × weight) + (6.25 × height) - (5 × age) + 5") \/
     (gender data = "female" /\
      bmr (mkResult 1674 2595 1.55 (VString "Moderately active")
                    "BMR = (10 × weight) + (6.25 × height) - (5 × age) + 5")
      = Math_round (10 * weight data + 6.25 * height data
                    - 5 * age data - 161)%float /\
      formula (mkResult 1674 2595 1.55 (VString "Moderately active")
                 "BMR = (10 × weight) + (6.25 × height) - (5 × age) + 5")
      = "BMR = (10 × weight) + (6.25 × height) - (5 × age) - 161")).
Proof.
  apply (displayed_result_from_valid_form
           parseFloat_of_options
           [AgeInput 25; WeightInput 70; HeightInput 175;
            ActivityLevelChanged item_moderately_active; FormSubmitted]).
  vm_compute. reflexivity.
Defined.

Lemma age_accepted_checked :
  forallb age_accepted_at (Z_range 16 85) = true.
Proof. vm_compute. reflexivity. Qed.

Lemma weight_accepted_checked :
  forallb weight_accepted_at (Z_range 300 2701) = true.
Proof. vm_compute. reflexivity. Qed.

Lemma height_accepted_checked :
  forallb height_accepted_at (Z_range 120 131) = true.
Proof. vm_compute. reflexivity. Qed.

(** The form accepts every weight in tenths from 30 to 300, every whole
    height from 120 to 250 and every whole age from 16 to 100. *)
Lemma form_numbers_accepted (k H A : Z) :
  (300 <= k <= 3000)%Z -> (120 <= H <= 250)%Z -> (16 <= A <= 100)%Z ->
  number_in_range 16 100 (VNumber (Z2float A)) = true /\
  number_in_range 30 300 (VNumber (Z2float k / 10)) = true /\
  number_in_range 120 250 (VNumber (Z2float H)) = true.
Proof.
  intros Hk HH HA. rewrite !Z2float_63 by lia. split; [|split].
  - apply (forallb_Z_range age_accepted_at 16 85 A age_accepted_checked). lia.
  - apply (forallb_Z_range weight_accepted_at 300 2701 k
                           weight_accepted_checked). lia.
  - apply (forallb_Z_range height_accepted_at 120 131 H
                           height_accepted_checked). lia.
Qed.

(** X14. The whole path on the values the form produces. With a host
    [parseFloat] that reads the five option values as their numbers, a
    submit of a weight in tenths from 30 to 300, a whole height from 120 to
    250, a whole age from 16 to 100, either gender and any of the five
    activity levels displays: as bmr the exact Mifflin-St Jeor value rounded
    half up, between 389 and 4488; as daily calories the exact product of
    that bmr with the multiplier, rounded half up, between the bmr and
    twice the bmr; the multiplier and description of the chosen level. *)
Theorem submit_exact_on_form_values (parseFloat : string -> float)
        (st : HomeState) (g : GenderItem) (k H A : Z) (it : ActivityItem) :
  reads_the_options parseFloat ->
  (300 <= k <= 3000)%Z -> (120 <= H <= 250)%Z -> (16 <= A <= 100)%Z ->
  formValues st
  = mkRaw (VString (gender_item_value g)) (VNumber (Z2float A))
          (VNumber (Z2float k / 10)) (VNumber (Z2float H))
          (VString (activity_item_value it)) ->
  resultsSection (handleSubmit parseFloat st)
  = Some (mkResult
            (Z2float (exact_bmr (gender_item_value g) k H A))
            (Z2float (exact_daily (exact_bmr (gender_item_value g) k H A)
                                  (activity_item_thousandths it)))
            (activity_item_multiplier it)
            (VString (activity_item_description it))
            (if String.eqb (gender_item_value g) "male"
             then "BMR = (10 × weight) + (6.25 × height) - (5 × age) + 5"
             else "BMR = (10 × weight) + (6.25 × height) - (5 × age) - 161")) /\
  (389 <= exact_bmr (gender_item_value g) k H A <= 4488)%Z /\
  (exact_bmr (gender_item_value g) k H A
   <= exact_daily (exact_bmr (gender_item_value g) k H A)
                  (activity_item_thousandths it)
   <= 2 * exact_bmr (gender_item_value g) k H A)%Z.
Proof.
  intros P Hk HH HA F.
  pose proof (exact_bmr_bounds (gender_item_value g) k H A Hk HH HA) as B.
  split; [|split; [exact B|]].
  2:{ apply exact_daily_bounds; [lia|apply activity_item_thousandths_bounds]. }
  destruct (form_numbers_accepted k H A Hk HH HA) as [RA [RW RH]].
  assert (V : violated_fields (formValues st) = []).
  { rewrite F. unfold violated_fields.
    cbn [raw_gender raw_age raw_weight raw_height raw_activityLevel].
    rewrite RA, RW, RH.
    replace (gender_ok (VString (gender_item_value g))) with true
      by (destruct g; reflexivity).
    reflexivity. }
  destruct (safeParse_complete _ V) as [data S].
  destruct (safeParse_success _ data S) as [F' _].
  rewrite F in F'. destruct data as [dg da dw dh dl].
  cbn [gender age weight height activityLevel] in F'.
  injection F' as <- <- <- <- <-.
  unfold handleSubmit. rewrite S.
  unfold resultsSection, onSubmit.
  cbn [showResults calculationResult gender age weight height activityLevel].
  rewrite (calculateBMR_exact_bmr _ k H A Hk HH HA).
  rewrite (P it).
  rewrite (calculateDailyCalories_exact_daily _ it) by lia.
  rewrite activity_item_description_get. reflexivity.
Qed.

Lemma submit_exact_on_form_values_witness :
  resultsSection
    (handleSubmit parseFloat_of_options
       (mkState false None
                (mkRaw (VString (gender_item_value item_female))
                       (VNumber (Z2float 30)) (VNumber (Z2float 605 / 10))
                       (VNumber (Z2float 165))
                       (VString (activity_item_value item_lightly_active)))
                []))
  = Some (mkResult
            (Z2float (exact_bmr (gender_item_value item_female) 605 165 30))
            (Z2float (exact_daily
                        (exact_bmr (gender_item_value item_female) 605 165 30)
                        (activity_item_thousandths item_lightly_active)))
            (activity_item_multiplier item_lightly_active)
            (VString (activity_item_description item_lightly_active))
            (if String.eqb (gender_item_value item_female) "male"
             then "BMR = (10 × weight) + (6.25 × height) - (5 × age) + 5"
             else "BMR = (10 × weight) + (6.25 × height) - (5 × age) - 161")) /\
  (389 <= exact_bmr (gender_item_value item_female) 605 165 30 <= 4488)%Z /\
  (exact_bmr (gender_item_value item_female) 605 165 30
   <= exact_daily (exact_bmr (gender_item_value item_female) 605 165 30)
                  (activity_item_thousandths item_lightly_active)
   <= 2 * exact_bmr (gender_item_value item_female) 605 165 30)%Z.
Proof.
  apply (submit_exact_on_form_values
           parseFloat_of_options
           (mkState false None
                (mkRaw (VString (gender_item_value item_female))
                       (VNumber (Z2float 30)) (VNumber (Z2float 605 / 10))
                       (VNumber (Z2float 165))
                       (VString (activity_item_value item_lightly_active)))
                [])
           item_female 605 165 30 item_lightly_active);
    try lia; try reflexivity.
  intros it. destruct it; reflexivity.
Defined.

(** X15. [resetCalculator] hides the result, puts the gender back to
    "male" and drops the activity level, but keeps the numbers typed into
    the three inputs. So a submit right after it shows nothing (the activity
    level is missing), and once a level is picked again a submit shows the
    result for gender "male" with the kept age, weight and height, whatever
    gender had been chosen before. *)
Theorem resetCalculator_keeps_numbers (parseFloat : string -> float)
        (st : HomeState) (a w h : float) (it : ActivityItem) :
  raw_age (formValues st) = VNumber a ->
  raw_weight (formValues st) = VNumber w ->
  raw_height (formValues st) = VNumber h ->
  number_in_range 16 100 (VNumber a) = true ->
  number_in_range 30 300 (VNumber w) = true ->
  number_in_range 120 250 (VNumber h) = true ->
  resultsSection (resetCalculator st) = None /\
  formValues (resetCalculator st)
  = mkRaw (VString "male") (VNumber a) (VNumber w) (VNumber h) VUndefined /\
  validate (formValues (resetCalculator st))
  = [mkIssue invalid_type "activityLevel"
             (Some "Please select your activity level")] /\
  handleSubmit parseFloat (resetCalculator st) = resetCalculator st /\
  resultsSection
    (handleSubmit parseFloat
       (step parseFloat (resetCalculator st) (ActivityLevelChanged it)))
  = Some (submitted_result parseFloat
            (mkData "male" a w h (activity_item_value it))).
Proof.
  intros Ea Ew Eh Ra Rw Rh.
  assert (F : formValues (resetCalculator st)
              = mkRaw (VString "male") (VNumber a) (VNumber w) (VNumber h)
                      VUndefined).
  { cbn. rewrite Ea, Ew, Eh. reflexivity. }
  assert (V : violated_fields (formValues (resetCalculator st))
              = ["activityLevel"]).
  { rewrite F. unfold violated_fields.
    cbn [raw_gender raw_age raw_weight raw_height raw_activityLevel].
    rewrite Ra, Rw, Rh. reflexivity. }
  split; [reflexivity|]. split; [exact F|]. split; [|split].
  - rewrite validate_fields, F.
    cbn [raw_gender raw_age raw_weight raw_height raw_activityLevel
         calorieFormSchema shape_gender shape_age shape_weight shape_height
         shape_activityLevel].
    destruct (number_in_range_parse
                (mkParams (Some "Age is required")
                          (Some "Age must be a number"))
                16 100 "Age must be at least 16" "Age must be at most 100"
                "age" _ eq_refl Ra) as [a' [Ia Pa]].
    destruct (number_in_range_parse
                (mkParams (Some "Weight is required")
                          (Some "Weight must be a number"))
                30 300 "Weight must be at least 30 kg"
                "Weight must be at most 300 kg" "weight" _ eq_refl Rw)
      as [w' [Iw Pw]].
    destruct (number_in_range_parse
                (mkParams (Some "Height is required")
                          (Some "Height must be a number"))
                120 250 "Height must be at least 120 cm"
                "Height must be at most 250 cm" "height" _ eq_refl Rh)
      as [h' [Ih Ph]].
    rewrite Pa, Pw, Ph. reflexivity.
  - apply handleSubmit_invalid. rewrite V. discriminate.
  - cbn [step].
    set (st' := with_formValues (resetCalculator st) _).
    assert (F' : formValues st'
                 = mkRaw (VString "male") (VNumber a) (VNumber w) (VNumber h)
                         (VString (activity_item_value it))).
    { subst st'. cbn. rewrite Ea, Ew, Eh. reflexivity. }
    assert (V' : violated_fields (formValues st') = []).
    { rewrite F'. unfold violated_fields.
      cbn [raw_gender raw_age raw_weight raw_height raw_activityLevel].
      rewrite Ra, Rw, Rh. reflexivity. }
    destruct (safeParse_complete _ V') as [data S].
    destruct (safeParse_success _ data S) as [D _].
    rewrite F' in D. destruct data as [dg da dw dh dl].
    cbn [gender age weight height activityLevel] in D.
    injection D as <- <- <- <- <-.
    unfold handleSubmit. rewrite S. reflexivity.
Qed.

Lemma resetCalculator_keeps_numbers_witness :
  resultsSection
    (resetCalculator
       (mkState true None
                (mkRaw (VString "female") (VNumber 30) (VNumber 60)
                       (VNumber 165) (VString "1.2")) [])) = None /\
  formValues
    (resetCalculator
       (mkState true None
                (mkRaw (VString "female") (VNumber 30) (VNumber 60)
                       (VNumber 165) (VString "1.2")) []))
  = mkRaw (VString "male") (VNumber 30) (VNumber 60) (VNumber 165)
          VUndefined /\
  validate
    (formValues
       (resetCalculator
          (mkState true None
                   (mkRaw (VString "female") (VNumber 30) (VNumber 60)
                          (VNumber 165) (VString "1.2")) [])))
  = [mkIssue invalid_type "activityLevel"
             (Some "Please select your activity level")] /\
  handleSubmit parseFloat_of_options
    (resetCalculator
       (mkState true None
                (mkRaw (VString "female") (VNumber 30) (VNumber 60)
                       (VNumber 165) (VString "1.2")) []))
  = resetCalculator
      (mkState true None
               (mkRaw (VString "female") (VNumber 30) (VNumber 60)
                      (VNumber 165) (VString "1.2")) []) /\
  resultsSection
    (handleSubmit parseFloat_of_options
       (step parseFloat_of_options
             (resetCalculator
                (mkState true None
                         (mkRaw (VString "female") (VNumber 30) (VNumber 60)
                                (VNumber 165) (VString "1.2")) []))
             (ActivityLevelChanged item_sedentary)))
  = Some (submitted_result parseFloat_of_options
            (mkData "male" 30 60 165
                    (activity_item_value item_sedentary))).
Proof.
  apply (resetCalculator_keeps_numbers
           parseFloat_of_options
           (mkState true None
                    (mkRaw (VString "female") (VNumber 30) (VNumber 60)
                           (VNumber 165) (VString "1.2")) [])
           30 60 165 item_sedentary); reflexivity.
Defined.

End PageProofs.

(** ** The calculator on NaN *)

Module CalculatorEdges.
Import JS CalorieCalculator FloatOrder.

Lemma mul_nan (x y : float) :
  is_nan x = true \/ is_nan y = true -> is_nan (x * y) = true.
Proof.
  rewrite !is_nan_spec, mul_spec. unfold SF64mul.
  intros [H|H]; rewrite H; [reflexivity|].
  destruct (Prim2SF x); reflexivity.
Qed.

Lemma add_nan (x y : float) :
  is_nan x = true \/ is_nan y = true -> is_nan (x + y) = true.
Proof.
  rewrite !is_nan_spec, add_spec. unfold SF64add.
  intros [H|H]; rewrite H; [reflexivity|].
  destruct (Prim2SF x); reflexivity.
Qed.

Lemma sub_nan (x y : float) :
  is_nan x = true \/ is_nan y = true -> is_nan (x - y) = true.
Proof.
  rewrite !is_nan_spec, sub_spec. unfold SF64sub.
  intros [H|H]; rewrite H; [reflexivity|].
  destruct (Prim2SF x); reflexivity.
Qed.

Lemma Math_round_nan (x : float) :
  is_nan x = true -> is_nan (Math_round x) = true.
Proof.
  intros H. assert (E : Math_round x = x).
  { unfold Math_round. apply is_nan_spec in H. rewrite H. reflexivity. }
  rewrite E. exact H.
Qed.

(** X16. The calculator does not guard against NaN, it passes it on: if the
    weight, the height or the age is NaN, [calculateBMR] returns NaN for any
    gender, and if the bmr or the multiplier is NaN, so is the result of
    [calculateDailyCalories]. *)
Theorem calculator_propagates_nan :
  (forall (g : string) (w h a : float),
      is_nan w = true \/ is_nan h = true \/ is_nan a = true ->
      is_nan (calculateBMR g w h a) = true) /\
  (forall bmr m : float,
      is_nan bmr = true \/ is_nan m = true ->
      is_nan (calculateDailyCalories bmr m) = true).
Proof.
  split.
  - intros g w h a H. unfold calculateBMR.
    assert (S : is_nan (10 * w + 6.25 * h - 5 * a) = true).
    { destruct H as [H|[H|H]].
      - apply sub_nan. left. apply add_nan. left. apply mul_nan. auto.
      - apply sub_nan. left. apply add_nan. right. apply mul_nan. auto.
      - apply sub_nan. right. apply mul_nan. auto. }
    destruct (String.eqb g "male"); apply Math_round_nan.
    + apply add_nan. left. exact S.
    + apply sub_nan. left. exact S.
  - intros bmr m H. unfold calculateDailyCalories.
    apply Math_round_nan, mul_nan, H.
Qed.

Lemma calculator_propagates_nan_witness :
  is_nan (calculateBMR "male" nan 175 25) = true /\
  is_nan (calculateDailyCalories 1674 nan) = true.
Proof.
  destruct calculator_propagates_nan as [B D]. split.
  - apply B. left. reflexivity.
  - apply D. right. reflexivity.
Defined.

End CalculatorEdges.

(** ** The code against the specification's exact formula and rules *)

Module SpecFormulaProofs.
Import JS Zod CalorieCalculator Home Rules Samples Checks SpecFormula.
Import FloatOrder CalculatorProofs HomeProofs.
Import Stdlib.QArith.QArith Stdlib.QArith.Qround.

(** On a weight of [k] tenths, a height of [H] and an age of [A], the
    formula is a fraction over 4. *)
Lemma spec_computeBMR_grid (male : bool) (k H A : Z) :
  spec_computeBMR male (Qmake k 10) (inject_Z H) (inject_Z A)
  = ((4 * k + 25 * H - 20 * A + (if male then 22 else - 642)) / 4)%Z.
Proof.
  unfold spec_computeBMR, spec_round.
  assert (E : (10 * (k # 10) + (25 # 4) * inject_Z H - 5 * inject_Z A
               + (if male then 5 else - (161)) + (1 # 2)
               == (4 * k + 25 * H - 20 * A
                   + (if male then 22 else - 642))%Z # 4)%Q).
  { destruct male; unfold Qeq, Qplus, Qminus, Qopp, Qmult, inject_Z;
      cbn -[Z.mul Z.add Z.sub Z.opp]; lia. }
  rewrite E. reflexivity.
Qed.

(** C1, as stated, fails on forms the schema accepts. For weight 137.75,
    height 120 and age 16.000000000000046 the exact formula gives
    2052.4999999999998 and rounds to 2052, while [calculateBMR] returns
    2053; for weight 30.049999999999997, height 120 and age 16 the formula
    rounds to 975 and [calculateBMR] returns 976. *)
Lemma calculateBMR_not_the_exact_formula :
  validate offset_167_form = [] /\
  spec_computeBMR_at true 137.75 120 age_above_16 = Some 2052%Z /\
  calculateBMR "male" 137.75 120 age_above_16 = 2053%float /\
  validate rounding_form = [] /\
  spec_computeBMR_at true 30.049999999999997 120 16 = Some 975%Z /\
  calculateBMR "male" 30.049999999999997 120 16 = 976%float /\
  Z2float 2052 <> 2053%float /\ Z2float 975 <> 976%float.
Proof.
  repeat split; try (vm_compute; reflexivity);
    intros H; float_discriminate H.
Qed.

(** C1, amended. For every weight that is a multiple of 0.1 from 30 to 300
    (handed to the code as the nearest number), every whole height from
    120 to 250 and every whole age from 16 to 100, [calculateBMR] returns
    the exactly computed [10·weight + 6.25·height − 5·age + 5] rounded half
    up for "male", and [10·weight + 6.25·height − 5·age − 161] rounded half
    up for "female"; for male 70 kg, 175 cm, 25 years that is 1674, and for
    female 60 kg, 165 cm, 30 years it is 1320. *)
Theorem calculateBMR_spec_formula_on_form (k H A : Z) :
  (300 <= k <= 3000)%Z -> (120 <= H <= 250)%Z -> (16 <= A <= 100)%Z ->
  (calculateBMR "male" (Z2float k / 10) (Z2float H) (Z2float A)
   = Z2float (spec_computeBMR true (Qmake k 10) (inject_Z H) (inject_Z A)) /\
   calculateBMR "female" (Z2float k / 10) (Z2float H) (Z2float A)
   = Z2float (spec_computeBMR false (Qmake k 10) (inject_Z H)
                              (inject_Z A))) /\
  (spec_computeBMR true (inject_Z 70) (inject_Z 175) (inject_Z 25) = 1674%Z /\
   calculateBMR "male" 70 175 25 = 1674%float) /\
  (spec_computeBMR false (inject_Z 60) (inject_Z 165) (inject_Z 30) = 1320%Z /\
   calculateBMR "female" 60 165 30 = 1320%float).
Proof.
  intros Hk HH HA. split; [|split; split; vm_compute; reflexivity].
  rewrite !spec_computeBMR_grid.
  exact (calculateBMR_exact_on_form k H A Hk HH HA).
Qed.

Lemma calculateBMR_spec_formula_on_form_witness :
  (calculateBMR "male" (Z2float 705 / 10) (Z2float 175) (Z2float 25)
   = Z2float (spec_computeBMR true (Qmake 705 10) (inject_Z 175)
                              (inject_Z 25)) /\
   calculateBMR "female" (Z2float 705 / 10) (Z2float 175) (Z2float 25)
   = Z2float (spec_computeBMR false (Qmake 705 10) (inject_Z 175)
                              (inject_Z 25))) /\
  (spec_computeBMR true (inject_Z 70) (inject_Z 175) (inject_Z 25) = 1674%Z /\
   calculateBMR "male" 70 175 25 = 1674%float) /\
  (spec_computeBMR false (inject_Z 60) (inject_Z 165) (inject_Z 30) = 1320%Z /\
   calculateBMR "female" 60 165 30 = 1320%float).
Proof.
  apply (calculateBMR_spec_formula_on_form 705 175 25); lia.
Defined.

(** C7, as stated, fails: with age 10, weight 10 and the activity level
    "2.0" the input is invalid in three fields for the specification, whose
    activity levels are the five fixed values, yet validation returns two
    issues: the schema takes any string as activity level. *)
Lemma validate_unlisted_level_two_issues :
  spec_violated_fields unlisted_level_form = ["age"; "weight"; "activityLevel"] /\
  length (spec_violated_fields unlisted_level_form) = 3%nat /\
  validate unlisted_level_form
  = [ mkIssue too_small "age" (Some "Age must be at least 16");
      mkIssue too_small "weight" (Some "Weight must be at least 30 kg") ] /\
  length (validate unlisted_level_form) = 2%nat.
Proof. repeat split; vm_compute; reflexivity. Qed.

End SpecFormulaProofs.
